(** * LAL: natural language to shell commands

    A shallow embedding of the three programs of the repository:

    - [api_server.py]        the Flask backend with the daily quota ([ApiServer]);
    - [Extra/lal.py]         the click/rich command-line tool ([Lal]);
    - [Extra/lal_simple.py]  the dependency-free command-line tool ([LalSimple]).

    Python code is embedded in a small state-and-exception monad: the state
    holds what the program mutates or does to the outside (the quota
    dictionary, the provider calls made, the shell commands run, the lines
    printed), exceptions are values of [exn].  Everything the programs read
    from the outside (environment variables, the clock, what the vendors
    answer, what the user types) is a field of a [world] record. *)

From Stdlib Require Import ZArith List Bool Lia.
From Stdlib Require QArith.
From stdpp Require Import gmap strings pretty.

Set Warnings "-register-all".

(* ===================================================================== *)
(** ** Python values, exceptions and the effect monad                     *)
(* ===================================================================== *)

Module Py.

(** A decoded JSON document, as [json.loads] / [response.json()] /
    [request.get_json()] build it: [None], [bool], [int], [float] (a finite
    float, as the rational it denotes), [str], [list] and [dict] (an
    association list, looked up by first match). *)
Inductive json : Type :=
| JNull
| JBool (b : bool)
| JInt (z : Z)
| JFloat (q : QArith_base.Q)
| JStr (s : string)
| JArr (items : list json)
| JObj (fields : list (string * json)).

(** The exception classes the programs can meet; every one of them is a
    subclass of [Exception], so every [except Exception] catches it. *)
Inductive exn_class : Type :=
| Exception | KeyError | TypeError | IndexError | AttributeError
| RequestException | JSONDecodeError | HTTPException | URLError
| ImportError | APIError | EOFError.

(** An exception object: its class and [str(e)]. *)
Record exn : Type := PyExn { exn_cls : exn_class; str_exn : string }.

Definition type_name (v : json) : string :=
  match v with
  | JNull => "NoneType"
  | JBool _ => "bool"
  | JInt _ => "int"
  | JFloat _ => "float"
  | JStr _ => "str"
  | JArr _ => "list"
  | JObj _ => "dict"
  end.

(** Truth value of a decoded document ([not data], [if x:]). *)
Definition truthy (v : json) : bool :=
  match v with
  | JNull => false
  | JBool b => b
  | JInt z => negb (z =? 0)%Z
  | JFloat q => negb (QArith_base.Qnum q =? 0)%Z
  | JStr s => negb (String.eqb s "")
  | JArr l => match l with [] => false | _ => true end
  | JObj f => match f with [] => false | _ => true end
  end.

(** Truth value of [os.getenv(...)]: [None] and the empty string are false. *)
Definition truthy_str (o : option string) : bool :=
  match o with
  | Some s => negb (String.eqb s "")
  | None => false
  end.

(** The string behind a truthy [os.getenv(...)]: [if key:] took the
    true branch exactly when this is [Some key]. *)
Definition nonempty (o : option string) : option string :=
  match o with
  | Some s => if String.eqb s "" then None else Some s
  | None => None
  end.

Fixpoint assoc (k : string) (f : list (string * json)) : option json :=
  match f with
  | [] => None
  | (k', v) :: f' => if String.eqb k k' then Some v else assoc k f'
  end.

(** [needle in hay] for two strings. *)
Definition substring_of (needle hay : string) : bool :=
  match String.index 0 needle hay with Some _ => true | None => false end.

Definition is_str (k : string) (v : json) : bool :=
  match v with JStr s => String.eqb s k | _ => false end.

(** [k in v] for a string [k]. *)
Definition contains (k : string) (v : json) : exn + bool :=
  match v with
  | JObj f => inr (match assoc k f with Some _ => true | None => false end)
  | JArr l => inr (existsb (is_str k) l)
  | JStr s => inr (substring_of k s)
  | _ => inl (PyExn TypeError
                ("argument of type '" +:+ type_name v +:+ "' is not iterable"))
  end.

(** [v[k]] for a string [k]. *)
Definition getitem (v : json) (k : string) : exn + json :=
  match v with
  | JObj f =>
      match assoc k f with
      | Some x => inr x
      | None => inl (PyExn KeyError ("'" +:+ k +:+ "'"))
      end
  | JArr _ => inl (PyExn TypeError "list indices must be integers or slices, not str")
  | JStr _ => inl (PyExn TypeError "string indices must be integers, not 'str'")
  | _ => inl (PyExn TypeError ("'" +:+ type_name v +:+ "' object is not subscriptable"))
  end.

(** [v[0]]. *)
Definition getitem0 (v : json) : exn + json :=
  match v with
  | JArr (x :: _) => inr x
  | JArr [] => inl (PyExn IndexError "list index out of range")
  | JStr (String c _) => inr (JStr (String c EmptyString))
  | JStr EmptyString => inl (PyExn IndexError "string index out of range")
  | JObj _ => inl (PyExn KeyError "0")
  | _ => inl (PyExn TypeError ("'" +:+ type_name v +:+ "' object is not subscriptable"))
  end.

Definition no_attribute (v : json) (attr : string) : exn :=
  PyExn AttributeError
    ("'" +:+ type_name v +:+ "' object has no attribute '" +:+ attr +:+ "'").

(** [v.get(k, dflt)]. *)
Definition get (v : json) (k : string) (dflt : json) : exn + json :=
  match v with
  | JObj f => inr (default dflt (assoc k f))
  | _ => inl (no_attribute v "get")
  end.

(** What the programs use of the Python runtime without defining it:
    [repr] of a decoded document and [str.strip]. *)
Record builtins : Type := {
  repr : json -> string;
  str_strip : string -> string
}.

(** [str(v)], also what an f-string puts for [{v}]. *)
Definition str (py : builtins) (v : json) : string :=
  match v with
  | JStr s => s
  | _ => repr py v
  end.

(** [v.strip()]. *)
Definition strip (py : builtins) (v : json) : exn + string :=
  match v with
  | JStr s => inr (str_strip py s)
  | _ => inl (no_attribute v "strip")
  end.

(** [s.lower()], on ASCII letters. *)
Definition lower_ascii (c : Ascii.ascii) : Ascii.ascii :=
  let n := Ascii.nat_of_ascii c in
  if (65 <=? n)%nat && (n <=? 90)%nat then Ascii.ascii_of_nat (n + 32) else c.

Fixpoint lower (s : string) : string :=
  match s with
  | EmptyString => EmptyString
  | String c s' => String (lower_ascii c) (lower s')
  end.

(** The effect monad: a computation reads and writes a state [S] and
    either returns a value or raises. *)
Definition M (S A : Type) : Type := S -> (exn + A) * S.

Definition ret {S A} (a : A) : M S A := fun s => (inr a, s).

Definition raise {S A} (e : exn) : M S A := fun s => (inl e, s).

Definition bind {S A B} (m : M S A) (k : A -> M S B) : M S B :=
  fun s =>
    match m s with
    | (inr a, s') => k a s'
    | (inl e, s') => (inl e, s')
    end.

(** [try: body / except Exception as e: handler e]. *)
Definition try_except {S A} (body : M S A) (handler : exn -> M S A) : M S A :=
  fun s =>
    match body s with
    | (inl e, s') => handler e s'
    | (inr a, s') => (inr a, s')
    end.

(** A pure step that may raise. *)
Definition lift {S A} (r : exn + A) : M S A := fun s => (r, s).

Definition gets {S A} (f : S -> A) : M S A := fun s => (inr (f s), s).

Definition modify {S} (f : S -> S) : M S unit := fun s => (inr tt, f s).

End Py.

Import Py.

Declare Scope py_scope.
Delimit Scope py_scope with py.
Notation "x <- c ; k" := (bind c (fun x => k))
  (at level 20, c at level 100, k at level 200, only parsing) : py_scope.
Open Scope py_scope.

(** The two vendors. *)
Inductive vendor : Type := Anthropic | OpenAI.

(* ===================================================================== *)
(** ** api_server.py                                                      *)
(* ===================================================================== *)

Module ApiServer.

(** One [requests.post] to a vendor.  The URL, the model, [max_tokens],
    [temperature] and the system instruction are constants fixed by the
    vendor; what varies is the key sent and the user message. *)
Record call : Type := {
  call_vendor : vendor;
  call_api_key : option string;
  call_content : string
}.

(** What [requests.post] returns: [response.status_code], and what
    [response.json()] gives (it raises on a body that is not JSON). *)
Record http_response : Type := {
  status_code : Z;
  response_json : exn + json
}.

(** The incoming Flask request: [request.get_json()] (a decoded body, or
    the exception it raises) and [request.remote_addr]. *)
Record request : Type := {
  get_json : exn + json;
  remote_addr : option string
}.

Record world : Type := {
  (** module globals, read once from the environment *)
  ANTHROPIC_API_KEY : option string;
  OPENAI_API_KEY : option string;
  (** [datetime.now().strftime('%Y-%m-%d')] at the n-th reading of the clock *)
  strftime_now : nat -> string;
  (** the vendors: the answer to a call, given the calls made before it *)
  requests_post : list call -> call -> exn + http_response;
  (** [hashlib.md5(s.encode()).hexdigest()] *)
  md5_hexdigest : string -> string;
  py : builtins
}.

(** The process state: the global [usage_tracker] dictionary, and two
    records of what the process did: the provider calls, in order, and how
    many times the clock was read. *)
Record state : Type := {
  usage_tracker : gmap string Z;
  calls : list call;
  clock_reads : nat
}.

Definition init : state :=
  {| usage_tracker := ∅; calls := []; clock_reads := 0 |}.

Definition DAILY_LIMIT : Z := 50.

(** The JSON bodies the handlers build. *)
Inductive body : Type :=
| ErrorBody (error : string)
| RateLimitBody (error message : string)
| CommandBody (command : string) (remaining_requests : Z)
| UsageBody (daily_limit used_today remaining_today : Z) (date : string)
| HealthBody (status service : string).

(** [jsonify(body), status] (status 200 when none is given). *)
Definition response : Type := body * Z.

Definition set_usage_tracker (t : gmap string Z) : M state unit :=
  modify (fun st =>
    {| usage_tracker := t; calls := calls st; clock_reads := clock_reads st |}).

(** [f"{user_id}:{today}"] *)
Definition quota_key (user_id today : string) : string :=
  user_id +:+ ":" +:+ today.

(** [usage_tracker[key]] *)
Definition tracker_getitem (key : string) : M state Z :=
  t <- gets usage_tracker ;
  match t !! key with
  | Some n => ret n
  | None => raise (PyExn KeyError ("'" +:+ key +:+ "'"))
  end.

(** [usage_tracker.get(key, 0)] *)
Definition tracker_get (key : string) (t : gmap string Z) : Z :=
  default 0%Z (t !! key).

Section Handlers.

Variable w : world.

(** [datetime.now().strftime('%Y-%m-%d')] *)
Definition today : M state string :=
  fun st =>
    (inr (strftime_now w (clock_reads st)),
     {| usage_tracker := usage_tracker st; calls := calls st;
        clock_reads := S (clock_reads st) |}).

(** [requests.post(url, headers=headers, json=data)] *)
Definition post (c : call) : M state http_response :=
  fun st =>
    (requests_post w (calls st) c,
     {| usage_tracker := usage_tracker st; calls := calls st ++ [c];
        clock_reads := clock_reads st |}).

Definition get_user_id (req : request) : M state string :=
  match remote_addr req with
  | Some ip => ret (md5_hexdigest w ip)
  | None => raise (no_attribute JNull "encode")
  end.

Definition check_rate_limit (user_id : string) : M state bool :=
  today <- today ;
  let key := quota_key user_id today in
  t <- gets usage_tracker ;
  _ <- (if bool_decide (is_Some (t !! key)) then ret tt
        else set_usage_tracker (<[key := 0%Z]> t)) ;
  n <- tracker_getitem key ;
  if (DAILY_LIMIT <=? n)%Z then ret false
  else
    n <- tracker_getitem key ;
    t <- gets usage_tracker ;
    _ <- set_usage_tracker (<[key := (n + 1)%Z]> t) ;
    ret true.

(** The [headers] and [data] of [call_anthropic]. *)
Definition anthropic_request (prompt : json) : call :=
  {| call_vendor := Anthropic;
     call_api_key := ANTHROPIC_API_KEY w;
     call_content := "Command: " +:+ str (py w) prompt |}.

(** The [headers] and [data] of [call_openai]. *)
Definition openai_request (prompt : json) : call :=
  {| call_vendor := OpenAI;
     call_api_key := OPENAI_API_KEY w;
     call_content := "Command: " +:+ str (py w) prompt |}.

Definition call_anthropic (prompt : json) : M state string :=
  response <- post (anthropic_request prompt) ;
  result <- lift (response_json response) ;
  if (status_code response =? 200)%Z then
    content <- lift (getitem result "content") ;
    block <- lift (getitem0 content) ;
    text <- lift (getitem block "text") ;
    lift (strip (py w) text)
  else
    error <- lift (get result "error" (JStr "Unknown error")) ;
    raise (PyExn Exception ("API error: " +:+ str (py w) error)).

Definition call_openai (prompt : json) : M state string :=
  response <- post (openai_request prompt) ;
  result <- lift (response_json response) ;
  if (status_code response =? 200)%Z then
    choices <- lift (getitem result "choices") ;
    choice <- lift (getitem0 choices) ;
    message <- lift (getitem choice "message") ;
    content <- lift (getitem message "content") ;
    lift (strip (py w) content)
  else
    error <- lift (get result "error" (JObj [])) ;
    message <- lift (get error "message" (JStr "Unknown error")) ;
    raise (PyExn Exception ("API error: " +:+ str (py w) message)).

(** Lines 118-134 of [generate_command]: the inner [try] with the
    fallback.  [inl r] is a [return r] out of the handler, [inr command]
    is falling through with [command] set. *)
Definition dispatch (prompt : json) : M state (response + string) :=
  try_except
    (if truthy_str (ANTHROPIC_API_KEY w) then
       command <- call_anthropic prompt ; ret (inr command)
     else if truthy_str (OPENAI_API_KEY w) then
       command <- call_openai prompt ; ret (inr command)
     else
       ret (inl (ErrorBody "No API keys configured on server", 500%Z)))
    (fun api_error =>
       if String.prefix "API error" (str_exn api_error)
          && truthy_str (OPENAI_API_KEY w) && truthy_str (ANTHROPIC_API_KEY w)
       then
         try_except
           (command <- call_openai prompt ; ret (inr command))
           (fun fallback_error =>
              ret (inl (ErrorBody ("Both APIs failed: " +:+ str_exn fallback_error),
                        500%Z)))
       else raise api_error).

(** Lines 118-142: what follows an accepted quota check. *)
Definition generate_after_quota (user_id : string) (prompt : json) : M state response :=
  r <- dispatch prompt ;
  match r with
  | inl early => ret early
  | inr command =>
      today <- today ;
      t <- gets usage_tracker ;
      let remaining := (DAILY_LIMIT - tracker_get (quota_key user_id today) t)%Z in
      ret (CommandBody command remaining, 200%Z)
  end.

(** [not data or 'prompt' not in data] *)
Definition prompt_missing (data : json) : exn + bool :=
  if negb (truthy data) then inr true
  else match contains "prompt" data with
       | inr b => inr (negb b)
       | inl e => inl e
       end.

Definition rate_limit_response : response :=
  (RateLimitBody "Rate limit exceeded"
     ("Daily limit of " +:+ pretty DAILY_LIMIT +:+ " requests reached. Try again tomorrow."),
   429%Z).

(** [POST /generate] *)
Definition generate_command (req : request) : M state response :=
  try_except
    (data <- lift (get_json req) ;
     missing <- lift (prompt_missing data) ;
     if missing then ret (ErrorBody "Missing prompt", 400%Z)
     else
       prompt <- lift (getitem data "prompt") ;
       user_id <- get_user_id req ;
       allowed <- check_rate_limit user_id ;
       if negb allowed then ret rate_limit_response
       else generate_after_quota user_id prompt)
    (fun e => ret (ErrorBody (str_exn e), 500%Z)).

(** [GET /health] *)
Definition health_check : M state response :=
  ret (HealthBody "healthy" "LAL API", 200%Z).

(** [GET /usage/<user_token>] *)
Definition get_usage (user_token : string) : M state response :=
  today <- today ;
  let key := quota_key user_token today in
  t <- gets usage_tracker ;
  let used := tracker_get key t in
  let remaining := (DAILY_LIMIT - used)%Z in
  ret (UsageBody DAILY_LIMIT used remaining today, 200%Z).

(** The process serving [POST /generate] requests one after the other. *)
Fixpoint serve (reqs : list request) : M state (list response) :=
  match reqs with
  | [] => ret []
  | req :: reqs' =>
      r <- generate_command req ;
      rs <- serve reqs' ;
      ret (r :: rs)
  end.

End Handlers.

(** *** Vocabulary for statements about the server *)

(** A request [generate_command] takes as far as the quota check: its
    body is a JSON object with a ["prompt"] entry and the peer address is
    known. *)
Definition well_formed (req : request) (prompt : json) (ip : string) : Prop :=
  exists fields,
    get_json req = inr (JObj fields) /\
    assoc "prompt" fields = Some prompt /\
    remote_addr req = Some ip.

(** The tracker after one more request was counted under [key]. *)
Definition count_one (key : string) (t : gmap string Z) : gmap string Z :=
  <[key := (tracker_get key t + 1)%Z]> t.

(** The state right after [check_rate_limit] has accepted [user_id]. *)
Definition charged (w : world) (user_id : string) (st : state) : state :=
  {| usage_tracker :=
       count_one (quota_key user_id (strftime_now w (clock_reads st))) (usage_tracker st);
     calls := calls st;
     clock_reads := S (clock_reads st) |}.

(** The state after the calls [cs] were made and nothing else happened. *)
Definition logged (cs : list call) (st : state) : state :=
  {| usage_tracker := usage_tracker st;
     calls := calls st ++ cs;
     clock_reads := clock_reads st |}.

(** The state after the clock was read once more and nothing else happened. *)
Definition ticked (st : state) : state :=
  {| usage_tracker := usage_tracker st;
     calls := calls st;
     clock_reads := S (clock_reads st) |}.

(** The guard of the fallback, line 128: the failure of the primary call
    is one the handler answers with a second call. *)
Definition falls_back (w : world) (e : exn) : bool :=
  String.prefix "API error" (str_exn e)
  && truthy_str (OPENAI_API_KEY w) && truthy_str (ANTHROPIC_API_KEY w).

(** The quota key of the caller at [ip], as [check_rate_limit] forms it
    in state [st]. *)
Definition key_now (w : world) (ip : string) (st : state) : string :=
  quota_key (md5_hexdigest w ip) (strftime_now w (clock_reads st)).

(** The body has no prompt, as line 105 tests it: it is false in Python
    (null, false, 0, an empty string, array or object), or it is an
    object, array or string that does not hold ["prompt"]. *)
Definition lacks_prompt (data : json) : Prop :=
  truthy data = false \/ contains "prompt" data = inr false.

(** A [200] answer carrying a command. *)
Definition is_success (r : response) : bool :=
  match r with
  | (CommandBody _ _, code) => (code =? 200)%Z
  | _ => false
  end.

(** What the outermost [except Exception as e] of [generate_command] makes
    of a result. *)
Definition surfaced (r : exn + response) : response :=
  match r with
  | inr resp => resp
  | inl e => (ErrorBody (str_exn e), 500%Z)
  end.

(** Every count the tracker holds lies between 1 and DAILY_LIMIT. *)
Definition within_limit (t : gmap string Z) : Prop :=
  forall key n, t !! key = Some n -> (1 <= n <= DAILY_LIMIT)%Z.


(** The two vendors side by side: the key, the request and the call of
    each, and the vendor that is not this one. *)
Definition api_key_of (w : world) (v : vendor) : option string :=
  match v with
  | Anthropic => ANTHROPIC_API_KEY w
  | OpenAI => OPENAI_API_KEY w
  end.

Definition request_to (w : world) (v : vendor) (prompt : json) : call :=
  match v with
  | Anthropic => anthropic_request w prompt
  | OpenAI => openai_request w prompt
  end.

Definition call_to (w : world) (v : vendor) (prompt : json) : M state string :=
  match v with
  | Anthropic => call_anthropic w prompt
  | OpenAI => call_openai w prompt
  end.

Definition other (v : vendor) : vendor :=
  match v with
  | Anthropic => OpenAI
  | OpenAI => Anthropic
  end.

End ApiServer.

(* ===================================================================== *)
(** ** Extra/lal.py                                                       *)
(* ===================================================================== *)

Module Lal.

(** One [client.messages.create] / [client.chat.completions.create]. *)
Record call : Type := {
  call_vendor : vendor;
  call_api_key : string;
  call_model : string;
  call_content : string
}.

(** What the tool prints, line by line (markup left out). *)
Inductive line : Type :=
| Usage
| ErrorLine (msg : string)
| ConfigHint
| CommandPanel (command : string)
| Executing (command : string)
| ExecuteHint
| Configuration (openai_set anthropic_set : bool)
| NoKeysWarning.

Record world : Type := {
  (** [os.getenv] *)
  getenv : string -> option string;
  (** [import openai; openai.OpenAI(api_key=...)] and its Anthropic twin:
      [Some e] when it raises [e] *)
  sdk_client : vendor -> option exn;
  (** the SDK call: it raises, or answers with the text fields of
      [response.content] / [response.choices] ([None] for an entry whose
      text is not a string), given the calls made before it *)
  sdk_create : list call -> call -> exn + list (option string);
  (** [Confirm.ask], given what the user has been shown *)
  confirm_ask : list line -> exn + bool;
  py : builtins
}.

(** What a run does to the outside: lines printed, provider calls made,
    commands handed to [os.system], each in order. *)
Record state : Type := {
  console : list line;
  calls : list call;
  shell : list string
}.

Definition init : state := {| console := []; calls := []; shell := [] |}.

(** [console.print(...)]: what the tool asks the console to show is
    recorded, one [line] for each request.  What [rich] makes of the text
    (it reads square brackets in it as markup, and raises on markup it
    cannot read) is not part of the model, nor is an interrupt from the
    keyboard: both can only cut a run short, after which it asks no
    provider and runs nothing. *)
Definition print (l : line) : M state unit :=
  modify (fun st =>
    {| console := console st ++ [l]; calls := calls st; shell := shell st |}).

(** [os.system(command)] *)
Definition os_system (command : string) : M state unit :=
  modify (fun st =>
    {| console := console st; calls := calls st; shell := shell st ++ [command] |}).

(** An instance of [OpenAIProvider] or [AnthropicProvider]. *)
Record AIProvider : Type := {
  provider_vendor : vendor;
  api_key : string;
  model : string
}.

Definition OpenAIProvider (api_key model : string) : AIProvider :=
  {| provider_vendor := OpenAI; api_key := api_key; model := model |}.

Definition AnthropicProvider (api_key model : string) : AIProvider :=
  {| provider_vendor := Anthropic; api_key := api_key; model := model |}.

Definition default_model (v : vendor) : string :=
  match v with
  | OpenAI => "gpt-4o-mini"
  | Anthropic => "claude-3-5-haiku-20241022"
  end.

Definition vendor_label (v : vendor) : string :=
  match v with
  | OpenAI => "OpenAI"
  | Anthropic => "Anthropic"
  end.

(** The arguments of [create] in [generate_command]: the model and the
    user message ([max_tokens], [temperature] and the system prompt are
    constants), sent with the key the client was built with. *)
Definition provider_request (self : AIProvider) (prompt : string) : call :=
  {| call_vendor := provider_vendor self;
     call_api_key := api_key self;
     call_model := model self;
     call_content := "Command: " +:+ prompt |}.

(** [model or dflt] *)
Definition or_default (o : option string) (dflt : string) : string :=
  match o with
  | Some s => if String.eqb s "" then dflt else s
  | None => dflt
  end.

Section Tool.

Variable w : world.

Definition create (c : call) : M state (list (option string)) :=
  fun st =>
    (sdk_create w (calls st) c,
     {| console := console st; calls := calls st ++ [c]; shell := shell st |}).

Definition confirm : M state bool :=
  fun st => (confirm_ask w (console st), st).

(** [OpenAIProvider.generate_command] and [AnthropicProvider.generate_command] *)
Definition generate_command (self : AIProvider) (prompt : string) : M state string :=
  try_except
    (_ <- lift (match sdk_client w (provider_vendor self) with
                | Some e => inl e
                | None => inr tt
                end) ;
     response <- create (provider_request self prompt) ;
     first <- lift (match response with
                    | x :: _ => inr x
                    | [] => inl (PyExn IndexError "list index out of range")
                    end) ;
     match first with
     | Some text => ret (str_strip (py w) text)
     | None => raise (no_attribute JNull "strip")
     end)
    (fun e =>
       raise (PyExn Exception
                (vendor_label (provider_vendor self) +:+ " API error: " +:+ str_exn e))).

Definition get_ai_provider : M state AIProvider :=
  match nonempty (getenv w "ANTHROPIC_API_KEY") with
  | Some anthropic_key =>
      ret (AnthropicProvider anthropic_key (default_model Anthropic))
  | None =>
      match nonempty (getenv w "OPENAI_API_KEY") with
      | Some openai_key => ret (OpenAIProvider openai_key (default_model OpenAI))
      | None =>
          raise (PyExn Exception
                   "No AI provider configured. Set OPENAI_API_KEY or ANTHROPIC_API_KEY environment variable.")
      end
  end.

Definition configure_api_keys : M state unit :=
  let openai_key := getenv w "OPENAI_API_KEY" in
  let anthropic_key := getenv w "ANTHROPIC_API_KEY" in
  _ <- print (Configuration (truthy_str openai_key) (truthy_str anthropic_key)) ;
  if negb (truthy_str openai_key) && negb (truthy_str anthropic_key)
  then print NoKeysWarning
  else ret tt.

(** Lines 158-173 of [main]: the provider is chosen.  [None] is the
    [return] after "... not set" has been printed. *)
Definition choose_provider (provider : option vendor) (model : option string)
  : M state (option AIProvider) :=
  match provider with
  | Some OpenAI =>
      match nonempty (getenv w "OPENAI_API_KEY") with
      | None => _ <- print (ErrorLine "OPENAI_API_KEY not set") ; ret None
      | Some api_key =>
          ret (Some (OpenAIProvider api_key (or_default model "gpt-4o-mini")))
      end
  | Some Anthropic =>
      match nonempty (getenv w "ANTHROPIC_API_KEY") with
      | None => _ <- print (ErrorLine "ANTHROPIC_API_KEY not set") ; ret None
      | Some api_key =>
          ret (Some (AnthropicProvider api_key (or_default model "claude-3-5-haiku-20241022")))
      end
  | None => ai <- get_ai_provider ; ret (Some ai)
  end.

(** Lines 175-192 of [main]: generate, display, and the execution gate. *)
Definition generate_and_run (ai : AIProvider) (prompt : string) (execute : bool)
  : M state unit :=
  command <- generate_command ai prompt ;
  _ <- print (CommandPanel command) ;
  if execute then
    yes <- confirm ;
    if yes then
      _ <- print (Executing command) ;
      os_system command
    else ret tt
  else print ExecuteHint.

Definition main (prompt : option string) (execute : bool)
    (provider : option vendor) (model : option string) (config : bool)
  : M state unit :=
  if config then configure_api_keys
  else
    match prompt with
    | None => print Usage
    | Some p =>
        if String.eqb p "" then print Usage
        else
          try_except
            (chosen <- choose_provider provider model ;
             match chosen with
             | None => ret tt
             | Some ai => generate_and_run ai p execute
             end)
            (fun e =>
               _ <- print (ErrorLine (str_exn e)) ;
               if substring_of "API" (str_exn e) then print ConfigHint
               else ret tt)
    end.

End Tool.

(** *** Vocabulary for statements about the tool *)

(** The environment variable holding the credential of a vendor. *)
Definition env_name (v : vendor) : string :=
  match v with
  | OpenAI => "OPENAI_API_KEY"
  | Anthropic => "ANTHROPIC_API_KEY"
  end.

(** The state after the lines [ls] were printed, the calls [cs] made and
    the commands [cmds] run. *)
Definition after (ls : list line) (cs : list call) (cmds : list string)
    (st : state) : state :=
  {| console := console st ++ ls;
     calls := calls st ++ cs;
     shell := shell st ++ cmds |}.

(** The calls a provider object makes for one prompt: one, unless the SDK
    cannot even be loaded. *)
Definition calls_of (w : world) (self : AIProvider) (prompt : string) : list call :=
  match sdk_client w (provider_vendor self) with
  | None => [provider_request self prompt]
  | Some _ => []
  end.

(** What the [except Exception as e] of [main] prints. *)
Definition error_lines (e : exn) : list line :=
  ErrorLine (str_exn e) :: if substring_of "API" (str_exn e) then [ConfigHint] else [].

(** The provider object built for vendor [v] with key [key]. *)
Definition provider_for (v : vendor) (key : string) (model : option string)
  : AIProvider :=
  {| provider_vendor := v; api_key := key;
     model := or_default model (default_model v) |}.

End Lal.

(* ===================================================================== *)
(** ** Extra/lal_simple.py                                                *)
(* ===================================================================== *)

Module LalSimple.

(** One [urllib.request.urlopen] on a vendor's endpoint. *)
Record call : Type := {
  call_vendor : vendor;
  call_api_key : option string;
  call_content : string
}.

Inductive line : Type :=
| Usage
| ConfigReport (openai_set anthropic_set : bool)
| NoKeysWarning
| NoKeysFound
| KeyNotSet (v : vendor)
| CommandBox (command : string)
| ExecutePrompt
| Executing (command : string)
| ExecuteHint
| ErrorLine (msg : string).

Record world : Type := {
  getenv : string -> option string;
  (** [urlopen] raises, or opens a response whose body decodes to a
      document (or fails to: [json.loads(response.read().decode('utf-8'))]) *)
  urlopen : list call -> call -> exn + (exn + json);
  (** [input(...)], given what the user has been shown *)
  input : list line -> exn + string;
  py : builtins
}.

Record state : Type := {
  console : list line;
  calls : list call;
  shell : list string
}.

Definition init : state := {| console := []; calls := []; shell := [] |}.

(** [print(...)]: what the tool asks to be written is recorded, one
    [line] for each request.  A failing write and an interrupt from the
    keyboard are not part of the model: both can only cut a run short,
    after which it makes no request and runs nothing. *)
Definition print (l : line) : M state unit :=
  modify (fun st =>
    {| console := console st ++ [l]; calls := calls st; shell := shell st |}).

Definition os_system (command : string) : M state unit :=
  modify (fun st =>
    {| console := console st; calls := calls st; shell := shell st ++ [command] |}).

(** [s in sys.argv] *)
Definition in_argv (s : string) (argv : list string) : bool :=
  existsb (String.eqb s) argv.

(** [sys.argv.index(s)], for an [s] that is in [argv] *)
Fixpoint argv_index (s : string) (argv : list string) : nat :=
  match argv with
  | [] => 0
  | a :: argv' => if String.eqb a s then 0 else S (argv_index s argv')
  end.

(** Line 148: [execute = "--execute" in sys.argv or "-e" in sys.argv] *)
Definition execute_flag (argv : list string) : bool :=
  in_argv "--execute" argv || in_argv "-e" argv.

(** Lines 149-155: the word after [--provider], when there is one. *)
Definition provider_flag (argv : list string) : option string :=
  if in_argv "--provider" argv then
    let idx := argv_index "--provider" argv in
    if (idx + 1 <? length argv)%nat then nth_error argv (idx + 1) else None
  else None.

(** The request a [make_..._request] sends. *)
Definition request_for (v : vendor) (prompt : string) (api_key : option string)
  : call :=
  {| call_vendor := v; call_api_key := api_key;
     call_content := "Command: " +:+ prompt |}.

Section Tool.

Variable w : world.

Definition open_url (c : call) : M state (exn + json) :=
  fun st =>
    (urlopen w (calls st) c,
     {| console := console st; calls := calls st ++ [c]; shell := shell st |}).

Definition read_input : M state string :=
  fun st =>
    (input w (console st ++ [ExecutePrompt]),
     {| console := console st ++ [ExecutePrompt]; calls := calls st; shell := shell st |}).

Definition make_anthropic_request (prompt : string) (api_key : option string)
  : M state string :=
  try_except
    (response <- open_url (request_for Anthropic prompt api_key) ;
     result <- lift response ;
     content <- lift (getitem result "content") ;
     block <- lift (getitem0 content) ;
     text <- lift (getitem block "text") ;
     lift (strip (py w) text))
    (fun e => raise (PyExn Exception ("API error: " +:+ str_exn e))).

Definition make_openai_request (prompt : string) (api_key : option string)
  : M state string :=
  try_except
    (response <- open_url (request_for OpenAI prompt api_key) ;
     result <- lift response ;
     choices <- lift (getitem result "choices") ;
     choice <- lift (getitem0 choices) ;
     message <- lift (getitem choice "message") ;
     content <- lift (getitem message "content") ;
     lift (strip (py w) content))
    (fun e => raise (PyExn Exception ("API error: " +:+ str_exn e))).

(** Lines 166-182 of [main]: [None] is the [return] after "... key not
    set" has been printed. *)
Definition request_command (provider : option string) (prompt : string)
    (anthropic_key openai_key : option string) : M state (option string) :=
  if match provider with Some p => String.eqb p "openai" | None => false end then
    if negb (truthy_str openai_key) then
      _ <- print (KeyNotSet OpenAI) ; ret None
    else command <- make_openai_request prompt openai_key ; ret (Some command)
  else if match provider with Some p => String.eqb p "anthropic" | None => false end then
    if negb (truthy_str anthropic_key) then
      _ <- print (KeyNotSet Anthropic) ; ret None
    else command <- make_anthropic_request prompt anthropic_key ; ret (Some command)
  else if truthy_str anthropic_key then
    command <- make_anthropic_request prompt anthropic_key ; ret (Some command)
  else
    command <- make_openai_request prompt openai_key ; ret (Some command).

(** Lines 184-195 of [main]: display and the execution gate. *)
Definition show_and_run (command : string) (execute : bool) : M state unit :=
  _ <- print (CommandBox command) ;
  if execute then
    response <- read_input ;
    if String.eqb (lower response) "y" then
      _ <- print (Executing command) ;
      os_system command
    else ret tt
  else print ExecuteHint.

Definition main (argv : list string) : M state unit :=
  match argv with
  | _ :: argv1 :: _ =>
      if String.eqb argv1 "--config" then
        let anthropic_key := getenv w "ANTHROPIC_API_KEY" in
        let openai_key := getenv w "OPENAI_API_KEY" in
        _ <- print (ConfigReport (truthy_str openai_key) (truthy_str anthropic_key)) ;
        if negb (truthy_str openai_key) && negb (truthy_str anthropic_key)
        then print NoKeysWarning
        else ret tt
      else
        let prompt := argv1 in
        let execute := execute_flag argv in
        let provider := provider_flag argv in
        let anthropic_key := getenv w "ANTHROPIC_API_KEY" in
        let openai_key := getenv w "OPENAI_API_KEY" in
        if negb (truthy_str anthropic_key) && negb (truthy_str openai_key) then
          print NoKeysFound
        else
          try_except
            (produced <- request_command provider prompt anthropic_key openai_key ;
             match produced with
             | None => ret tt
             | Some command => show_and_run command execute
             end)
            (fun e => print (ErrorLine (str_exn e)))
  | _ => print Usage
  end.

End Tool.

(** *** Vocabulary for statements about the tool *)

(** The state after the lines [ls] were printed, the calls [cs] made and
    the commands [cmds] run. *)
Definition after (ls : list line) (cs : list call) (cmds : list string)
    (st : state) : state :=
  {| console := console st ++ ls;
     calls := calls st ++ cs;
     shell := shell st ++ cmds |}.

(** The word that selects a vendor after [--provider], and the
    environment variable holding its key. *)
Definition provider_word (v : vendor) : string :=
  match v with
  | OpenAI => "openai"
  | Anthropic => "anthropic"
  end.

Definition env_name (v : vendor) : string :=
  match v with
  | OpenAI => "OPENAI_API_KEY"
  | Anthropic => "ANTHROPIC_API_KEY"
  end.

End LalSimple.

(* ===================================================================== *)
(** ** Concrete worlds, for running the programs                          *)
(* ===================================================================== *)

Module Samples.

Definition is_space (c : Ascii.ascii) : bool :=
  let n := Ascii.nat_of_ascii c in
  (n =? 32)%nat || ((9 <=? n)%nat && (n <=? 13)%nat).

Fixpoint lstrip (s : string) : string :=
  match s with
  | EmptyString => EmptyString
  | String c s' => if is_space c then lstrip s' else s
  end.

Fixpoint rstrip (s : string) : string :=
  match s with
  | EmptyString => EmptyString
  | String c s' =>
      let r := rstrip s' in
      if is_space c && String.eqb r "" then EmptyString else String c r
  end.

(** A runtime good enough for the documents below: [strip] on ASCII
    blanks, [repr] of [None], booleans and integers. *)
Definition runtime : builtins :=
  {| repr := fun v =>
       match v with
       | JNull => "None"
       | JBool true => "True"
       | JBool false => "False"
       | JInt z => pretty z
       | _ => "<" +:+ type_name v +:+ ">"
       end;
     str_strip := fun s => rstrip (lstrip s) |}.

(** MD5 of the two addresses used below. *)
Definition md5 (s : string) : string :=
  if String.eqb s "127.0.0.1" then "f528764d624db129b32c21fbca0cb8d6"
  else if String.eqb s "10.0.0.7" then "00958fd0af98291fdf517e3fe763da5c"
  else "d41d8cd98f00b204e9800998ecf8427e".

Definition anthropic_ok : ApiServer.http_response :=
  {| ApiServer.status_code := 200;
     ApiServer.response_json :=
       inr (JObj [("content", JArr [JObj [("type", JStr "text"); ("text", JStr " ls -la ")]])]) |}.

Definition openai_ok : ApiServer.http_response :=
  {| ApiServer.status_code := 200;
     ApiServer.response_json :=
       inr (JObj [("choices",
                   JArr [JObj [("message", JObj [("role", JStr "assistant");
                                                 ("content", JStr "ls -la")])]])]) |}.

(** A gateway answering 502 with an HTML page: [response.json()] raises. *)
Definition bad_gateway : ApiServer.http_response :=
  {| ApiServer.status_code := 502;
     ApiServer.response_json :=
       inl (PyExn JSONDecodeError "Expecting value: line 1 column 1 (char 0)") |}.

Definition anthropic_overloaded : ApiServer.http_response :=
  {| ApiServer.status_code := 529;
     ApiServer.response_json :=
       inr (JObj [("type", JStr "error"); ("error", JStr "Overloaded")]) |}.

Definition openai_unauthorized : ApiServer.http_response :=
  {| ApiServer.status_code := 401;
     ApiServer.response_json :=
       inr (JObj [("error", JObj [("message", JStr "Incorrect API key provided")])]) |}.

(** A clock that shows one day for ever. *)
Definition always (day : string) : nat -> string := fun _ => day.


(** A server with the given keys, vendor answers and clock. *)
Definition server (anthropic_key openai_key : option string)
    (anthropic openai : exn + ApiServer.http_response) (clock : nat -> string)
  : ApiServer.world :=
  {| ApiServer.ANTHROPIC_API_KEY := anthropic_key;
     ApiServer.OPENAI_API_KEY := openai_key;
     ApiServer.strftime_now := clock;
     ApiServer.requests_post := fun _ c =>
       match ApiServer.call_vendor c with
       | Anthropic => anthropic
       | OpenAI => openai
       end;
     ApiServer.md5_hexdigest := md5;
     ApiServer.py := runtime |}.

(** Both keys set, both vendors answering. *)
Definition healthy (clock : nat -> string) : ApiServer.world :=
  server (Some "sk-ant-test") (Some "sk-test") (inr anthropic_ok) (inr openai_ok) clock.

(** Both keys set, both vendors answering, but for the second call the
    process makes, which meets a failing gateway. *)
Definition flaky (clock : nat -> string) : ApiServer.world :=
  {| ApiServer.ANTHROPIC_API_KEY := Some "sk-ant-test";
     ApiServer.OPENAI_API_KEY := Some "sk-test";
     ApiServer.strftime_now := clock;
     ApiServer.requests_post := fun log c =>
       if (length log =? 1)%nat then inr bad_gateway
       else match ApiServer.call_vendor c with
            | Anthropic => inr anthropic_ok
            | OpenAI => inr openai_ok
            end;
     ApiServer.md5_hexdigest := md5;
     ApiServer.py := runtime |}.

(** Both keys set, Anthropic behind a failing gateway. *)
Definition gateway_down : ApiServer.world :=
  server (Some "sk-ant-test") (Some "sk-test") (inr bad_gateway) (inr openai_ok)
    (always "2025-01-01").

(** Both keys set, both vendors refusing. *)
Definition both_refusing : ApiServer.world :=
  server (Some "sk-ant-test") (Some "sk-test")
    (inr anthropic_overloaded) (inr openai_unauthorized) (always "2025-01-01").

(** No key set. *)
Definition keyless : ApiServer.world :=
  server None None (inr anthropic_ok) (inr openai_ok) (always "2025-01-01").

(** Only the OpenAI key set, and OpenAI refusing it. *)
Definition openai_only : ApiServer.world :=
  server None (Some "sk-test") (inr anthropic_ok) (inr openai_unauthorized)
    (always "2025-01-01").

(** A request whose body is the JSON number 5. *)
Definition number_body : ApiServer.request :=
  {| ApiServer.get_json := inr (JInt 5); ApiServer.remote_addr := Some "127.0.0.1" |}.

Definition post_prompt (prompt : json) (ip : string) : ApiServer.request :=
  {| ApiServer.get_json := inr (JObj [("prompt", prompt)]);
     ApiServer.remote_addr := Some ip |}.

Definition list_files : ApiServer.request :=
  post_prompt (JStr "list all files") "127.0.0.1".

(** The tracker of a process in which 127.0.0.1 has used up 2025-01-01. *)
Definition exhausted : ApiServer.state :=
  {| ApiServer.usage_tracker :=
       {[ "f528764d624db129b32c21fbca0cb8d6:2025-01-01" := 50%Z ]};
     ApiServer.calls := [];
     ApiServer.clock_reads := 0 |}.

(** A command-line environment for [lal.py]. *)
Definition shell_env (anthropic_key openai_key : option string) (name : string)
  : option string :=
  if String.eqb name "ANTHROPIC_API_KEY" then anthropic_key
  else if String.eqb name "OPENAI_API_KEY" then openai_key
  else None.

Definition lal (anthropic_key openai_key : option string)
    (answer : exn + list (option string)) (confirmation : exn + bool)
  : Lal.world :=
  {| Lal.getenv := shell_env anthropic_key openai_key;
     Lal.sdk_client := fun _ => None;
     Lal.sdk_create := fun _ _ => answer;
     Lal.confirm_ask := fun _ => confirmation;
     Lal.py := runtime |}.

Definition lal_simple (anthropic_key openai_key : option string)
    (answer : exn + (exn + json)) (typed : exn + string)
  : LalSimple.world :=
  {| LalSimple.getenv := shell_env anthropic_key openai_key;
     LalSimple.urlopen := fun _ _ => answer;
     LalSimple.input := fun _ => typed;
     LalSimple.py := runtime |}.

End Samples.

(* ===================================================================== *)
(** ** Proof steps for code in the effect monad                           *)
(* ===================================================================== *)

(** Unfolds the monad, so that a program applied to a state computes. *)
Ltac run :=
  unfold bind, ret, raise, lift, gets, modify, try_except in *; simpl in *.

(** Splits on the first scrutinee that blocks the computation. *)
Ltac step :=
  match goal with
  | |- context [match ?x with _ => _ end] =>
      lazymatch x with
      | context [match _ with _ => _ end] => fail
      | _ => destruct x eqn:?; simpl in *
      end
  end.

(* ===================================================================== *)
(** ** The server: quota tracker and dispatch                             *)
(* ===================================================================== *)

Module ApiServerSpec.

Import ApiServer.

Lemma tracker_get_count_one key t :
  tracker_get key (count_one key t) = (tracker_get key t + 1)%Z.
Proof. unfold tracker_get, count_one. by rewrite lookup_insert_eq. Qed.

Lemma tracker_get_count_other key key' t :
  key <> key' -> tracker_get key' (count_one key t) = tracker_get key' t.
Proof. intros Hne. unfold tracker_get, count_one. by rewrite lookup_insert_ne. Qed.

(** [check_rate_limit] in one equation: the answer, and the state it leaves. *)
Lemma check_rate_limit_run w user_id st :
  check_rate_limit w user_id st =
    if (DAILY_LIMIT <=?
          tracker_get (quota_key user_id (strftime_now w (clock_reads st)))
            (usage_tracker st))%Z
    then (inr false, ticked st)
    else (inr true, charged w user_id st).
Proof.
  unfold check_rate_limit, today, set_usage_tracker, tracker_getitem,
    charged, ticked, count_one, tracker_get.
  run.
  destruct (usage_tracker st !! _) as [n|] eqn:Hkey; simpl.
  - rewrite Hkey; simpl.
    destruct (DAILY_LIMIT <=? n)%Z; simpl; [done|].
    by rewrite Hkey.
  - repeat (rewrite lookup_insert_eq; simpl).
    by rewrite insert_insert_eq.
Qed.

(** A provider call makes exactly one request, whatever comes of it, and
    touches nothing else. *)
Lemma call_anthropic_run w prompt st :
  exists r, call_anthropic w prompt st = (r, logged [anthropic_request w prompt] st).
Proof.
  unfold call_anthropic, post, logged. run.
  repeat step; eauto.
Qed.

Lemma call_openai_run w prompt st :
  exists r, call_openai w prompt st = (r, logged [openai_request w prompt] st).
Proof.
  unfold call_openai, post, logged. run.
  repeat step; eauto.
Qed.

Lemma logged_logged cs cs' st : logged cs' (logged cs st) = logged (cs ++ cs') st.
Proof. unfold logged; simpl. by rewrite app_assoc. Qed.

(** [dispatch] when the Anthropic key is set, in terms of the two calls. *)
Lemma dispatch_anthropic w prompt st :
  truthy_str (ANTHROPIC_API_KEY w) = true ->
  dispatch w prompt st =
    match call_anthropic w prompt st with
    | (inr command, st1) => (inr (inr command), st1)
    | (inl e, st1) =>
        if falls_back w e then
          match call_openai w prompt st1 with
          | (inr command, st2) => (inr (inr command), st2)
          | (inl fe, st2) =>
              (inr (inl (ErrorBody ("Both APIs failed: " +:+ str_exn fe), 500%Z)), st2)
          end
        else (inl e, st1)
    end.
Proof.
  intros HA. unfold dispatch, falls_back. rewrite HA.
  unfold try_except at 1, bind at 1.
  destruct (call_anthropic w prompt st) as [[e|command] st1]; [|done].
  destruct (_ && _ && _); [|done].
  unfold try_except, bind, ret.
  by destruct (call_openai w prompt st1) as [[fe|command] st2].
Qed.

(** [dispatch] when only the OpenAI key is set: one call, no fallback. *)
Lemma dispatch_openai_only w prompt st :
  truthy_str (ANTHROPIC_API_KEY w) = false ->
  truthy_str (OPENAI_API_KEY w) = true ->
  dispatch w prompt st =
    match call_openai w prompt st with
    | (inr command, st1) => (inr (inr command), st1)
    | (inl e, st1) => (inl e, st1)
    end.
Proof.
  intros HA HO. unfold dispatch. rewrite HA, HO.
  unfold try_except, bind, ret, raise.
  destruct (call_openai w prompt st) as [[e|command] st1]; [|done].
  by rewrite andb_false_r.
Qed.

Lemma dispatch_no_keys w prompt st :
  truthy_str (ANTHROPIC_API_KEY w) = false ->
  truthy_str (OPENAI_API_KEY w) = false ->
  dispatch w prompt st =
    (inr (inl (ErrorBody "No API keys configured on server", 500%Z)), st).
Proof. intros HA HO. unfold dispatch. by rewrite HA, HO. Qed.

(** Whatever the keys and the vendors, [dispatch] only makes calls: at
    most two, the second one to OpenAI after a first one to Anthropic. *)
Lemma dispatch_frame w prompt st :
  exists r cs,
    dispatch w prompt st = (r, logged cs st) /\
    (cs = [] \/ cs = [anthropic_request w prompt] \/ cs = [openai_request w prompt]
     \/ cs = [anthropic_request w prompt; openai_request w prompt]).
Proof.
  destruct (truthy_str (ANTHROPIC_API_KEY w)) eqn:HA.
  - rewrite dispatch_anthropic by done.
    destruct (call_anthropic_run w prompt st) as [r ->].
    destruct r as [e|command]; [|by eauto 10].
    destruct (falls_back w e); [|by eauto 10].
    destruct (call_openai_run w prompt (logged [anthropic_request w prompt] st)) as [r ->].
    rewrite logged_logged. destruct r; eauto 10.
  - destruct (truthy_str (OPENAI_API_KEY w)) eqn:HO.
    + rewrite dispatch_openai_only by done.
      destruct (call_openai_run w prompt st) as [r ->].
      destruct r; eauto 10.
    + rewrite dispatch_no_keys by done.
      exists (inr (inl (ErrorBody "No API keys configured on server", 500%Z))), [].
      split; [|by left]. unfold logged. rewrite app_nil_r. by destruct st.
Qed.

(** Nothing after the quota check writes to the tracker. *)
Lemma generate_after_quota_frame w user_id prompt st :
  exists r st',
    generate_after_quota w user_id prompt st = (r, st') /\
    usage_tracker st' = usage_tracker st /\
    (exists cs, calls st' = calls st ++ cs /\ length cs <= 2).
Proof.
  unfold generate_after_quota, bind at 1.
  destruct (dispatch_frame w prompt st) as (r & cs & -> & Hcs).
  assert (length cs <= 2) by (destruct Hcs as [->|[->|[->| ->]]]; simpl; lia).
  destruct r as [e|[early|command]]; unfold today; run; eauto 10.
Qed.

Lemma well_formed_resolves req prompt ip :
  well_formed req prompt ip ->
  exists data,
    get_json req = inr data /\ prompt_missing data = inr false /\
    getitem data "prompt" = inr prompt /\ remote_addr req = Some ip.
Proof.
  intros (fields & Hjson & Hprompt & Hip).
  exists (JObj fields). repeat split; try done.
  - unfold prompt_missing; simpl. destruct fields; [done|]; simpl in *.
    by rewrite Hprompt.
  - simpl. by rewrite Hprompt.
Qed.

(** A well-formed request of a caller at the limit: 429, and nothing
    happened but a reading of the clock. *)
Lemma generate_command_rejected w req prompt ip st :
  well_formed req prompt ip ->
  (DAILY_LIMIT <= tracker_get (key_now w ip st) (usage_tracker st))%Z ->
  generate_command w req st = (inr rate_limit_response, ticked st).
Proof.
  intros (data & Hjson & Hmiss & Hget & Hip)%well_formed_resolves Hlim.
  unfold generate_command, get_user_id, key_now in *.
  rewrite Hjson, Hip. unfold try_except, bind, lift, ret.
  rewrite Hmiss, Hget, check_rate_limit_run.
  apply Z.leb_le in Hlim. by rewrite Hlim.
Qed.

(** A well-formed request of a caller under the limit: the count goes up
    by one, and then, from that state, lines 118-142 run. *)
Lemma generate_command_accepted w req prompt ip st :
  well_formed req prompt ip ->
  (tracker_get (key_now w ip st) (usage_tracker st) < DAILY_LIMIT)%Z ->
  generate_command w req st =
    let (r, st') :=
      generate_after_quota w (md5_hexdigest w ip) prompt
        (charged w (md5_hexdigest w ip) st) in
    (inr (surfaced r), st').
Proof.
  intros (data & Hjson & Hmiss & Hget & Hip)%well_formed_resolves Hlim.
  unfold generate_command, get_user_id, key_now in *.
  rewrite Hjson, Hip. unfold try_except, bind at 1 2 3 4 5, lift, ret.
  rewrite Hmiss, Hget, check_rate_limit_run.
  apply Z.leb_gt in Hlim. rewrite Hlim; simpl.
  by destruct (generate_after_quota _ _ _ _) as [[e|resp] st'].
Qed.

(** The handler never lets an exception out. *)
Lemma generate_command_total w req st :
  exists resp st', generate_command w req st = (inr resp, st').
Proof.
  unfold generate_command, try_except.
  destruct (bind _ _ st) as [[e|resp] st']; unfold ret; eauto.
Qed.

(** A request that is not well formed is answered with an error body, and
    leaves the state as it was: no count, no call, no reading of the clock. *)
Lemma generate_command_ill_formed w req st :
  (forall prompt ip, ~ well_formed req prompt ip) ->
  exists msg code, generate_command w req st = (inr (ErrorBody msg, code), st).
Proof.
  intros Hno. unfold generate_command, get_user_id, prompt_missing.
  destruct (get_json req) as [e|data] eqn:Hjson; run; [by eauto|].
  destruct (truthy data) eqn:Htruthy; simpl; [|by eauto].
  destruct data; simpl in *; try by eauto.
  - destruct (substring_of "prompt" s); simpl; eauto.
  - destruct (existsb (is_str "prompt") items); simpl; eauto.
  - destruct (assoc "prompt" fields) as [prompt|] eqn:Hprompt; simpl; [|by eauto].
    destruct (remote_addr req) as [ip|] eqn:Hip; simpl; [|by eauto].
    destruct (Hno prompt ip). by exists fields.
Qed.

(** Whoever got a command sent a well-formed request and was under the limit. *)
Lemma success_inv w req st command remaining st' ip :
  generate_command w req st = (inr (CommandBody command remaining, 200%Z), st') ->
  remote_addr req = Some ip ->
  exists prompt,
    well_formed req prompt ip /\
    (tracker_get (key_now w ip st) (usage_tracker st) < DAILY_LIMIT)%Z.
Proof.
  intros Hrun Hip.
  assert (exists prompt, well_formed req prompt ip) as [prompt Hreq].
  { destruct (get_json req) as [e|data] eqn:Hjson.
    - destruct (generate_command_ill_formed w req st) as (msg & code & Herr);
        [|congruence].
      intros p i (fields & ? & _). congruence.
    - destruct (match data with JObj f => assoc "prompt" f | _ => None end)
        as [prompt|] eqn:Hprompt.
      + exists prompt. destruct data; try discriminate. by exists fields.
      + destruct (generate_command_ill_formed w req st) as (msg & code & Herr);
          [|congruence].
        intros p i (fields & Hj & Hp & _).
        rewrite Hjson in Hj. injection Hj as ->. congruence. }
  exists prompt. split; [done|].
  destruct (Z.lt_ge_cases (tracker_get (key_now w ip st) (usage_tracker st)) DAILY_LIMIT)
    as [Hlt|Hge]; [done|].
  rewrite (generate_command_rejected w req prompt ip st Hreq Hge) in Hrun.
  discriminate.
Qed.

(** An early return out of [dispatch] is a 500 with an error body. *)
Lemma dispatch_early w prompt st early st' :
  dispatch w prompt st = (inr (inl early), st') ->
  exists msg, early = (ErrorBody msg, 500%Z).
Proof.
  destruct (truthy_str (ANTHROPIC_API_KEY w)) eqn:HA.
  - rewrite dispatch_anthropic by done.
    destruct (call_anthropic w prompt st) as [[e|command] st1]; [|congruence].
    destruct (falls_back w e); [|congruence].
    destruct (call_openai w prompt st1) as [[fe|command] st2]; [|congruence].
    intros [= <- _]. eauto.
  - destruct (truthy_str (OPENAI_API_KEY w)) eqn:HO.
    + rewrite dispatch_openai_only by done.
      destruct (call_openai w prompt st) as [[e|command] st1]; congruence.
    + rewrite dispatch_no_keys by done. intros [= <- _]. eauto.
Qed.

(** Lines 118-142 in terms of [dispatch]: an exception or an early
    return passes through; a command is answered with DAILY_LIMIT less the
    count stored for the day the clock shows then. *)
Lemma generate_after_quota_run w user_id prompt st :
  exists cs,
    length cs <= 2 /\
    snd (dispatch w prompt st) = logged cs st /\
    match fst (dispatch w prompt st) with
    | inr (inr command) =>
        generate_after_quota w user_id prompt st =
          (inr (CommandBody command
                  (DAILY_LIMIT -
                     tracker_get (quota_key user_id (strftime_now w (clock_reads st)))
                       (usage_tracker st)), 200%Z),
           ticked (logged cs st))
    | inr (inl early) =>
        (exists msg, early = (ErrorBody msg, 500%Z)) /\
        generate_after_quota w user_id prompt st = (inr early, logged cs st)
    | inl e =>
        generate_after_quota w user_id prompt st = (inl e, logged cs st)
    end.
Proof.
  destruct (dispatch_frame w prompt st) as (rd & cs & Hd & Hcs).
  pose proof (dispatch_early w prompt st) as Hearly.
  exists cs. split; [destruct Hcs as [->|[->|[->| ->]]]; simpl; lia|].
  rewrite Hd in Hearly |- *; simpl.
  split; [done|].
  destruct rd as [e|[early|command]].
  - unfold generate_after_quota, bind. by rewrite Hd.
  - split; [by eapply Hearly|].
    unfold generate_after_quota, bind. by rewrite Hd.
  - unfold generate_after_quota, today, bind, gets, ret. by rewrite Hd.
Qed.

Lemma generate_after_quota_success w user_id prompt st r st' command remaining :
  generate_after_quota w user_id prompt st = (r, st') ->
  surfaced r = (CommandBody command remaining, 200%Z) ->
  usage_tracker st' = usage_tracker st /\
  remaining =
    (DAILY_LIMIT -
       tracker_get (quota_key user_id (strftime_now w (clock_reads st)))
         (usage_tracker st))%Z.
Proof.
  destruct (generate_after_quota_run w user_id prompt st) as (cs & _ & _ & Hrun).
  destruct (fst (dispatch w prompt st)) as [e|[early|cmd]].
  - rewrite Hrun. intros [= <- <-]; simpl. discriminate.
  - destruct Hrun as [[msg ->] ->]. intros [= <- <-]; simpl. discriminate.
  - rewrite Hrun. intros [= <- <-]; simpl. by intros [= _ <-].
Qed.


(** What an accepted request answers when the day does not change under
    it: the command, and DAILY_LIMIT less the count it has just raised. *)
Lemma success_remaining w d req st command remaining st' ip :
  (forall n, strftime_now w n = d) ->
  generate_command w req st = (inr (CommandBody command remaining, 200%Z), st') ->
  remote_addr req = Some ip ->
  let key := quota_key (md5_hexdigest w ip) d in
  remaining = (DAILY_LIMIT - (tracker_get key (usage_tracker st) + 1))%Z /\
  usage_tracker st' = count_one key (usage_tracker st).
Proof.
  intros Hday Hrun Hip key.
  destruct (success_inv _ _ _ _ _ _ _ Hrun Hip) as (prompt & Hreq & Hunder).
  rewrite (generate_command_accepted w req prompt ip st Hreq Hunder) in Hrun.
  destruct (generate_after_quota _ _ _ _) as [r st2] eqn:Hafter.
  injection Hrun as Hr ->.
  destruct (generate_after_quota_success _ _ _ _ _ _ _ _ Hafter Hr)
    as (Htracker & ->).
  rewrite Htracker. unfold charged; simpl. rewrite !Hday. fold key.
  by rewrite tracker_get_count_one.
Qed.

Lemma is_success_inv r :
  is_success r = true ->
  exists command remaining, r = (CommandBody command remaining, 200%Z).
Proof.
  destruct r as [[] code]; try discriminate; simpl.
  intros ->%Z.eqb_eq. eauto.
Qed.

Lemma serve_cons w req reqs st :
  serve w (req :: reqs) st =
    match generate_command w req st with
    | (inr r, st1) =>
        match serve w reqs st1 with
        | (inr rs, st2) => (inr (r :: rs), st2)
        | (inl e, st2) => (inl e, st2)
        end
    | (inl e, st1) => (inl e, st1)
    end.
Proof. reflexivity. Qed.

(** C2.  [check_rate_limit], for every caller and day: when the count
    stored under the caller's key for the day is at least DAILY_LIMIT
    (which is 50) it answers [False] and the tracker is left as it was;
    otherwise it answers [True] and the count under that key, and nothing
    else, has gone up by exactly one.  No provider call is made either way. *)
Theorem check_rate_limit_spec w user_id st :
  let key := quota_key user_id (strftime_now w (clock_reads st)) in
  let count := tracker_get key (usage_tracker st) in
  let r := check_rate_limit w user_id st in
  DAILY_LIMIT = 50%Z /\
  calls (snd r) = calls st /\
  ((DAILY_LIMIT <= count)%Z ->
     fst r = inr false /\ usage_tracker (snd r) = usage_tracker st) /\
  ((count < DAILY_LIMIT)%Z ->
     fst r = inr true /\
     usage_tracker (snd r) = <[key := (count + 1)%Z]> (usage_tracker st) /\
     tracker_get key (usage_tracker (snd r)) = (count + 1)%Z).
Proof.
  intros key count r. subst r. rewrite check_rate_limit_run. fold key count.
  split; [done|]. split; [by destruct (DAILY_LIMIT <=? count)%Z|].
  split; intros H.
  - apply Z.leb_le in H. by rewrite H.
  - apply Z.leb_gt in H. rewrite H; simpl.
    split; [done|]. split; [done|]. apply tracker_get_count_one.
Qed.

(** C10.  [GET /usage/<user_token>], for every token and every state:
    the tracker is left exactly as it was (the count is read with a
    default of 0, nothing is inserted), no call is made, and the body
    satisfies used_today + remaining_today = daily_limit. *)
Theorem get_usage_spec w user_token st :
  let date := strftime_now w (clock_reads st) in
  let used := tracker_get (quota_key user_token date) (usage_tracker st) in
  exists remaining st',
    get_usage w user_token st =
      (inr (UsageBody DAILY_LIMIT used remaining date, 200%Z), st') /\
    usage_tracker st' = usage_tracker st /\
    calls st' = calls st /\
    (used + remaining = DAILY_LIMIT)%Z.
Proof.
  intros date used.
  exists (DAILY_LIMIT - used)%Z, (ticked st).
  split; [done|]. repeat split. lia.
Qed.

(** C9.  A request that passes the quota check is counted before any
    provider is chosen or called, and stays counted: [check_rate_limit]
    accepts and leaves the count one higher with no call made so far;
    selection and calls run from that state; whatever their outcome (a
    command, "No API keys configured", an upstream failure), the tracker
    in the final state is the one the check left. *)
Theorem quota_charged_before_dispatch w req prompt ip st
    (Hreq : well_formed req prompt ip)
    (Hunder : (tracker_get (key_now w ip st) (usage_tracker st) < DAILY_LIMIT)%Z) :
  let user_id := md5_hexdigest w ip in
  let key := key_now w ip st in
  let count := tracker_get key (usage_tracker st) in
  exists st1 r st',
    check_rate_limit w user_id st = (inr true, st1) /\
    usage_tracker st1 = <[key := (count + 1)%Z]> (usage_tracker st) /\
    calls st1 = calls st /\
    generate_after_quota w user_id prompt st1 = (r, st') /\
    generate_command w req st = (inr (surfaced r), st') /\
    usage_tracker st' = usage_tracker st1 /\
    tracker_get key (usage_tracker st') = (count + 1)%Z.
Proof.
  intros user_id key count.
  destruct (generate_after_quota_frame w user_id prompt (charged w user_id st))
    as (r & st' & Hrun & Htracker & _).
  exists (charged w user_id st), r, st'.
  pose proof (generate_command_accepted w req prompt ip st Hreq Hunder) as Hgen.
  fold user_id in Hgen. rewrite Hrun in Hgen.
  subst user_id key count. unfold key_now in *.
  split.
  { rewrite check_rate_limit_run. apply Z.leb_gt in Hunder. by rewrite Hunder. }
  repeat (split; [done|]).
  rewrite Htracker. apply tracker_get_count_one.
Qed.





Lemma lacks_prompt_object fields :
  assoc "prompt" fields = None -> lacks_prompt (JObj fields).
Proof. intros H. right. simpl. by rewrite H. Qed.

(** C4, as the code has it.  A request whose body has no prompt (the body
    is null, false, 0 or empty, or it is an object, array or string that
    does not hold "prompt") is answered 400 "Missing prompt", and the state
    is left exactly as it was: no count, no provider call. *)
Theorem missing_prompt_rejected w req data st
    (Hjson : get_json req = inr data)
    (Hmissing : lacks_prompt data) :
  generate_command w req st = (inr (ErrorBody "Missing prompt", 400%Z), st).
Proof.
  unfold generate_command, prompt_missing. rewrite Hjson. run.
  destruct Hmissing as [H|H]; rewrite H; simpl; [done|].
  by destruct (truthy data).
Qed.

(** C1, as the code has it.  Both keys set, a well-formed request of a
    caller under the limit, and the Anthropic call fails with [e]; that is
    one call.  When [str(e)] starts with "API error" (Anthropic answered
    with a status other than 200 and a JSON object), exactly one more call
    is made, to OpenAI: if it fails with [fallback_error] the answer is 500
    "Both APIs failed: " followed by [str(fallback_error)], after two calls
    in all; if it delivers, the answer is a 200 with its command.  When
    [str(e)] does not start with "API error", no second call is made: the
    answer is 500 with [str(e)], after one call. *)
Theorem fallback_on_api_error w req prompt ip st e st1
    (Hreq : well_formed req prompt ip)
    (Hunder : (tracker_get (key_now w ip st) (usage_tracker st) < DAILY_LIMIT)%Z)
    (Hanthropic : truthy_str (ANTHROPIC_API_KEY w) = true)
    (Hopenai : truthy_str (OPENAI_API_KEY w) = true)
    (Hprimary :
       call_anthropic w prompt (charged w (md5_hexdigest w ip) st) = (inl e, st1)) :
  calls st1 = calls st ++ [anthropic_request w prompt] /\
  (String.prefix "API error" (str_exn e) = true ->
   exists r2 st2,
     call_openai w prompt st1 = (r2, st2) /\
     calls st2 = calls st ++ [anthropic_request w prompt; openai_request w prompt] /\
     match r2 with
     | inl fallback_error =>
         generate_command w req st =
           (inr (ErrorBody ("Both APIs failed: " +:+ str_exn fallback_error), 500%Z), st2)
     | inr command =>
         exists remaining,
           generate_command w req st =
             (inr (CommandBody command remaining, 200%Z), ticked st2)
     end) /\
  (String.prefix "API error" (str_exn e) = false ->
   generate_command w req st = (inr (ErrorBody (str_exn e), 500%Z), st1)).
Proof.
  pose proof (generate_command_accepted w req prompt ip st Hreq Hunder) as Hgen.
  set (user_id := md5_hexdigest w ip) in *.
  destruct (call_anthropic_run w prompt (charged w user_id st)) as [r1 Hr1].
  rewrite Hprimary in Hr1. injection Hr1 as <- ->.
  assert (Hd : dispatch w prompt (charged w user_id st) =
               if String.prefix "API error" (str_exn e) then
                 match call_openai w prompt
                         (logged [anthropic_request w prompt] (charged w user_id st))
                 with
                 | (inr command, st2) => (inr (inr command), st2)
                 | (inl fe, st2) =>
                     (inr (inl (ErrorBody ("Both APIs failed: " +:+ str_exn fe), 500%Z)),
                      st2)
                 end
               else (inl e, logged [anthropic_request w prompt] (charged w user_id st))).
  { rewrite (dispatch_anthropic w prompt _ Hanthropic), Hprimary.
    unfold falls_back. by rewrite Hopenai, Hanthropic, !andb_true_r. }
  unfold generate_after_quota, bind at 1 in Hgen. rewrite Hd in Hgen. clear Hd.
  split; [done|]. split; intros Hprefix; rewrite Hprefix in Hgen; [|done].
  destruct (call_openai_run w prompt (logged [anthropic_request w prompt]
                                        (charged w user_id st))) as [r2 Hr2].
  rewrite Hr2 in Hgen |- *. eexists _, _. split; [done|].
  split; [simpl; by rewrite <- app_assoc|].
  destruct r2 as [fallback_error|command]; [done|].
  unfold today in Hgen; run. eauto.
Qed.

Lemma well_formed_dec req :
  (exists prompt ip, well_formed req prompt ip) \/
  (forall prompt ip, ~ well_formed req prompt ip).
Proof.
  destruct (get_json req) as [e|data] eqn:Hjson.
  { right. intros p i (fields & ? & _). congruence. }
  destruct (remote_addr req) as [ip|] eqn:Hip.
  2: { right. intros p i (fields & _ & _ & ?). congruence. }
  destruct (match data with JObj f => assoc "prompt" f | _ => None end)
    as [prompt|] eqn:Hprompt.
  - left. exists prompt, ip. destruct data; try discriminate. by exists fields.
  - right. intros p i (fields & Hj & Hp & _).
    rewrite Hjson in Hj. injection Hj as ->. congruence.
Qed.

(** A server without keys, a well-formed request, a caller under the limit. *)
Lemma keyless_accepted w req prompt ip st :
  truthy_str (ANTHROPIC_API_KEY w) = false ->
  truthy_str (OPENAI_API_KEY w) = false ->
  well_formed req prompt ip ->
  (tracker_get (key_now w ip st) (usage_tracker st) < DAILY_LIMIT)%Z ->
  generate_command w req st =
    (inr (ErrorBody "No API keys configured on server", 500%Z),
     charged w (md5_hexdigest w ip) st).
Proof.
  intros HA HO Hreq Hunder.
  rewrite (generate_command_accepted w req prompt ip st Hreq Hunder).
  unfold generate_after_quota, bind. by rewrite dispatch_no_keys.
Qed.

(** A server without keys never calls a vendor. *)
Lemma keyless_no_calls w req st :
  truthy_str (ANTHROPIC_API_KEY w) = false ->
  truthy_str (OPENAI_API_KEY w) = false ->
  calls (snd (generate_command w req st)) = calls st.
Proof.
  intros HA HO.
  destruct (well_formed_dec req) as [(prompt & ip & Hreq)|Hill].
  - destruct (Z.lt_ge_cases (tracker_get (key_now w ip st) (usage_tracker st))
                DAILY_LIMIT) as [Hlt|Hge].
    + by rewrite (keyless_accepted w req prompt ip st).
    + by rewrite (generate_command_rejected w req prompt ip st).
  - by destruct (generate_command_ill_formed w req st Hill) as (msg & code & ->).
Qed.

(** *** The theorems at work on concrete servers *)

Import Samples.

Lemma list_files_well_formed :
  well_formed list_files (JStr "list all files") "127.0.0.1".
Proof. by exists [("prompt", JStr "list all files")]. Qed.

(** C1, the claim as the spec words it, fails: both keys are set and
    Anthropic sits behind a gateway answering 502 with an HTML page.  The
    primary call fails ([response.json()] raises), yet OpenAI is never
    tried: one call in all, and the 500 carries the primary failure. *)
Lemma no_fallback_behind_bad_gateway :
  let r := generate_command gateway_down list_files init in
  truthy_str (ANTHROPIC_API_KEY gateway_down) = true /\
  truthy_str (OPENAI_API_KEY gateway_down) = true /\
  fst (call_anthropic gateway_down (JStr "list all files") init)
    = inl (PyExn JSONDecodeError "Expecting value: line 1 column 1 (char 0)") /\
  fst r = inr (ErrorBody "Expecting value: line 1 column 1 (char 0)", 500%Z) /\
  calls (snd r) = [anthropic_request gateway_down (JStr "list all files")].
Proof. vm_compute. done. Qed.

(** C1 at work: Anthropic answers 529, OpenAI answers 401. *)
Lemma fallback_on_api_error_witness :
  fst (generate_command both_refusing list_files init)
    = inr (ErrorBody "Both APIs failed: API error: Incorrect API key provided", 500%Z) /\
  calls (snd (generate_command both_refusing list_files init))
    = [anthropic_request both_refusing (JStr "list all files");
       openai_request both_refusing (JStr "list all files")].
Proof.
  destruct (fallback_on_api_error both_refusing list_files (JStr "list all files")
              "127.0.0.1" init (PyExn Exception "API error: Overloaded")
              (snd (call_anthropic both_refusing (JStr "list all files")
                      (charged both_refusing (md5 "127.0.0.1") init))))
    as (_ & Hfallback & _).
  - exact list_files_well_formed.
  - vm_compute. reflexivity.
  - reflexivity.
  - reflexivity.
  - vm_compute. reflexivity.
  - destruct (Hfallback eq_refl) as (r2 & st2 & Hopenai & Hcalls & Hanswer).
    vm_compute in Hopenai. injection Hopenai as <- <-.
    rewrite Hanswer. split; vm_compute; reflexivity.
Defined.

(** C4, the claim as the spec words it, fails: a prompt that is present
    but empty is not rejected.  The request is counted and Anthropic is
    called with an empty request. *)
Lemma empty_prompt_is_dispatched :
  let w := healthy (always "2025-01-01") in
  let r := generate_command w (post_prompt (JStr "") "127.0.0.1") init in
  fst r = inr (CommandBody "ls -la" 49, 200%Z) /\
  tracker_get (key_now w "127.0.0.1" init) (usage_tracker (snd r)) = 1%Z /\
  calls (snd r) =
    [{| call_vendor := Anthropic; call_api_key := Some "sk-ant-test";
        call_content := "Command: " |}].
Proof. vm_compute. done. Qed.

(** C4 at work: a body without a prompt entry. *)
Lemma missing_prompt_rejected_witness :
  let req := {| get_json := inr (JObj [("text", JStr "list all files")]);
                remote_addr := Some "127.0.0.1" |} in
  generate_command (healthy (always "2025-01-01")) req init
  = (inr (ErrorBody "Missing prompt", 400%Z), init).
Proof.
  intros req.
  apply (missing_prompt_rejected (healthy (always "2025-01-01")) req
           (JObj [("text", JStr "list all files")]) init).
  - reflexivity.
  - by apply lacks_prompt_object.
Defined.

(** C9 at work: a server without keys still counts the request. *)
Lemma quota_charged_before_dispatch_witness :
  fst (generate_command keyless list_files init)
    = inr (ErrorBody "No API keys configured on server", 500%Z) /\
  tracker_get (key_now keyless "127.0.0.1" init)
    (usage_tracker (snd (generate_command keyless list_files init))) = 1%Z.
Proof.
  destruct (quota_charged_before_dispatch keyless list_files (JStr "list all files")
              "127.0.0.1" init)
    as (st1 & r & st' & Hcheck & _ & _ & Hafter & Hanswer & _ & Hcount).
  - exact list_files_well_formed.
  - vm_compute. reflexivity.
  - rewrite Hanswer. split; [|exact Hcount].
    vm_compute in Hcheck. injection Hcheck as <-.
    vm_compute in Hafter. by injection Hafter as <- _.
Defined.


(** C3 at work on a vendor that fails now and then: the second of three
    requests is answered 500, and is counted all the same, so the third
    answer carries 47, not 48. *)
Example upstream_failure_is_counted :
  fst (serve (flaky (always "2025-01-01")) [list_files; list_files; list_files] init)
  = inr [(CommandBody "ls -la" 49, 200%Z);
         (ErrorBody "Expecting value: line 1 column 1 (char 0)", 500%Z);
         (CommandBody "ls -la" 47, 200%Z)].
Proof. vm_compute. reflexivity. Qed.



End ApiServerSpec.

(* ===================================================================== *)
(** ** The command-line tool: selection and the execution gate            *)
(* ===================================================================== *)

Module LalSpec.

Import Lal.

Lemma after_nil st : after [] [] [] st = st.
Proof. unfold after. rewrite !app_nil_r. by destruct st. Qed.

Lemma after_after ls cs cmds ls' cs' cmds' st :
  after ls' cs' cmds' (after ls cs cmds st)
  = after (ls ++ ls') (cs ++ cs') (cmds ++ cmds') st.
Proof. unfold after; simpl. by rewrite !app_assoc. Qed.

Lemma generate_command_run w self prompt st :
  exists r,
    generate_command w self prompt st = (r, after [] (calls_of w self prompt) [] st).
Proof.
  unfold generate_command, create, calls_of.
  destruct (sdk_client w (provider_vendor self)) as [e|]; run.
  - rewrite after_nil. eauto.
  - replace (after [] [provider_request self prompt] [] st)
      with {| console := console st;
              calls := calls st ++ [provider_request self prompt];
              shell := shell st |}
      by (unfold after; by rewrite !app_nil_r).
    destruct (sdk_create w (calls st) _) as [e|[|[text|] rest]]; simpl; eauto.
Qed.

(** [choose_provider] with a preference: the key of that vendor decides. *)
Lemma choose_provider_preferred w v model st :
  choose_provider w (Some v) model st =
    match nonempty (getenv w (env_name v)) with
    | Some key => (inr (Some (provider_for v key model)), st)
    | None => (inr None, after [ErrorLine (env_name v +:+ " not set")] [] [] st)
    end.
Proof.
  unfold choose_provider, print, after.
  destruct v; simpl; destruct (nonempty _); run; try done;
    by rewrite !app_nil_r.
Qed.

(** [choose_provider] without one: Anthropic first, then OpenAI. *)
Lemma choose_provider_auto w model st :
  choose_provider w None model st =
    match nonempty (getenv w "ANTHROPIC_API_KEY") with
    | Some key => (inr (Some (provider_for Anthropic key None)), st)
    | None =>
        match nonempty (getenv w "OPENAI_API_KEY") with
        | Some key => (inr (Some (provider_for OpenAI key None)), st)
        | None =>
            (inl (PyExn Exception
                    "No AI provider configured. Set OPENAI_API_KEY or ANTHROPIC_API_KEY environment variable."),
             st)
        end
    end.
Proof.
  unfold choose_provider, get_ai_provider. run.
  by repeat destruct (nonempty _).
Qed.

(** Lines 175-192 in one equation. *)
Lemma generate_and_run_run w ai prompt execute st :
  generate_and_run w ai prompt execute st =
    match generate_command w ai prompt st with
    | (inl e, st1) => (inl e, st1)
    | (inr command, st1) =>
        if execute then
          match confirm_ask w (console st1 ++ [CommandPanel command]) with
          | inl e => (inl e, after [CommandPanel command] [] [] st1)
          | inr true =>
              (inr tt, after [CommandPanel command; Executing command] [] [command] st1)
          | inr false => (inr tt, after [CommandPanel command] [] [] st1)
          end
        else (inr tt, after [CommandPanel command; ExecuteHint] [] [] st1)
    end.
Proof.
  unfold generate_and_run, print, confirm, os_system, after. run.
  destruct (generate_command w ai prompt st) as [[e|command] st1]; [done|]; simpl.
  destruct execute; simpl; [|by rewrite <- !app_assoc, !app_nil_r].
  destruct (confirm_ask w _) as [e|[|]]; simpl;
    by rewrite <- ?app_assoc, ?app_nil_r.
Qed.

(** [main] on a prompt, in terms of the provider chosen. *)
Lemma main_run w prompt execute provider model st :
  prompt <> "" ->
  main w (Some prompt) execute provider model false st =
    match choose_provider w provider model st with
    | (inl e, st1) => (inr tt, after (error_lines e) [] [] st1)
    | (inr None, st1) => (inr tt, st1)
    | (inr (Some ai), st1) =>
        match generate_and_run w ai prompt execute st1 with
        | (inl e, st2) => (inr tt, after (error_lines e) [] [] st2)
        | (inr tt, st2) => (inr tt, st2)
        end
    end.
Proof.
  intros Hprompt. unfold main. cbv beta iota zeta.
  destruct (String.eqb_spec prompt ""); [done|].
  unfold try_except at 1, bind at 1.
  destruct (choose_provider w provider model st) as [[e|[ai|]] st1].
  - unfold error_lines, print, after. run.
    destruct (substring_of "API" (str_exn e)); simpl;
      by rewrite <- ?app_assoc, ?app_nil_r.
  - destruct (generate_and_run w ai prompt execute st1) as [[e|[]] st2]; [|done].
    unfold error_lines, print, after. run.
    destruct (substring_of "API" (str_exn e)); simpl;
      by rewrite <- ?app_assoc, ?app_nil_r.
  - done.
Qed.

Lemma print_run l st : print l st = (inr tt, after [l] [] [] st).
Proof. unfold print, modify, after. by rewrite !app_nil_r. Qed.

Lemma configure_api_keys_run w st :
  exists ls, configure_api_keys w st = (inr tt, after ls [] [] st).
Proof.
  unfold configure_api_keys, bind. rewrite print_run.
  destruct (_ && _).
  - rewrite print_run, after_after. eauto.
  - unfold ret. eauto.
Qed.

(** [main] without a prompt, or with [--config], only prints. *)
Lemma main_idle w prompt execute provider model config st :
  config = true \/ prompt = None \/ prompt = Some "" ->
  exists ls, main w prompt execute provider model config st = (inr tt, after ls [] [] st).
Proof.
  unfold main.
  intros [->|[->| ->]]; [|destruct config..]; simpl;
    try apply configure_api_keys_run; rewrite print_run; eauto.
Qed.

(** Once a provider object is chosen, the calls of a run are its calls. *)
Lemma main_calls w prompt execute provider model ai st :
  prompt <> "" ->
  choose_provider w provider model st = (inr (Some ai), st) ->
  calls (snd (main w (Some prompt) execute provider model false st))
  = calls st ++ calls_of w ai prompt.
Proof.
  intros Hprompt Hchosen.
  rewrite main_run, Hchosen, generate_and_run_run by done.
  destruct (generate_command_run w ai prompt st) as [r ->].
  destruct r as [e|command]; simpl; [by rewrite app_nil_r|].
  destruct execute; [destruct (confirm_ask w _) as [e|[|]]|]; simpl;
    by rewrite !app_nil_r.
Qed.

(** C5.  Selection in [lal.py], for every preference and every state of
    the two environment variables (a credential is present when the
    variable is set and not empty).
    (a) A preferred vendor whose credential is present: the client is that
        vendor's, built with that credential, and the calls of the run are
        that client's.
    (b) A preferred vendor whose credential is absent, whatever the other
        variable holds: "... not set" is printed and the run ends there,
        with no provider call and no shell command.
    (c) No preference: Anthropic when its credential is present; else
        OpenAI when its credential is present. *)
Theorem provider_selection w model st :
  (forall v key,
     nonempty (getenv w (env_name v)) = Some key ->
     choose_provider w (Some v) model st = (inr (Some (provider_for v key model)), st) /\
     forall prompt execute,
       prompt <> "" ->
       calls (snd (main w (Some prompt) execute (Some v) model false st))
       = calls st ++ calls_of w (provider_for v key model) prompt) /\
  (forall v,
     nonempty (getenv w (env_name v)) = None ->
     forall prompt execute,
       prompt <> "" ->
       let r := main w (Some prompt) execute (Some v) model false st in
       r = (inr tt, after [ErrorLine (env_name v +:+ " not set")] [] [] st) /\
       calls (snd r) = calls st /\ shell (snd r) = shell st) /\
  (forall key,
     nonempty (getenv w "ANTHROPIC_API_KEY") = Some key ->
     choose_provider w None model st = (inr (Some (provider_for Anthropic key None)), st) /\
     forall prompt execute,
       prompt <> "" ->
       calls (snd (main w (Some prompt) execute None model false st))
       = calls st ++ calls_of w (provider_for Anthropic key None) prompt) /\
  (forall key,
     nonempty (getenv w "ANTHROPIC_API_KEY") = None ->
     nonempty (getenv w "OPENAI_API_KEY") = Some key ->
     choose_provider w None model st = (inr (Some (provider_for OpenAI key None)), st) /\
     forall prompt execute,
       prompt <> "" ->
       calls (snd (main w (Some prompt) execute None model false st))
       = calls st ++ calls_of w (provider_for OpenAI key None) prompt).
Proof.
  split; [|split; [|split]].
  - intros v key Hkey.
    assert (choose_provider w (Some v) model st
            = (inr (Some (provider_for v key model)), st)) as Hchosen
      by (by rewrite choose_provider_preferred, Hkey).
    split; [done|]. intros prompt execute Hprompt. by apply main_calls.
  - intros v Hkey prompt execute Hprompt r. subst r.
    rewrite main_run, choose_provider_preferred, Hkey by done.
    split; [done|]. simpl. by rewrite !app_nil_r.
  - intros key Hkey.
    assert (choose_provider w None model st
            = (inr (Some (provider_for Anthropic key None)), st)) as Hchosen
      by (by rewrite choose_provider_auto, Hkey).
    split; [done|]. intros prompt execute Hprompt. by apply main_calls.
  - intros key Hnone Hkey.
    assert (choose_provider w None model st
            = (inr (Some (provider_for OpenAI key None)), st)) as Hchosen
      by (by rewrite choose_provider_auto, Hnone, Hkey).
    split; [done|]. intros prompt execute Hprompt. by apply main_calls.
Qed.

(** Without credentials [main] ends on a configuration error, having
    called no provider and run no command. *)
Lemma unconfigured w prompt execute provider model st :
  nonempty (getenv w "ANTHROPIC_API_KEY") = None ->
  nonempty (getenv w "OPENAI_API_KEY") = None ->
  prompt <> "" ->
  main w (Some prompt) execute provider model false st =
    (inr tt,
     after match provider with
           | Some v => [ErrorLine (env_name v +:+ " not set")]
           | None =>
               [ErrorLine "No AI provider configured. Set OPENAI_API_KEY or ANTHROPIC_API_KEY environment variable.";
                ConfigHint]
           end [] [] st).
Proof.
  intros HA HO Hprompt. rewrite main_run by done.
  destruct provider as [v|].
  - rewrite choose_provider_preferred. by destruct v; simpl; rewrite ?HA, ?HO.
  - by rewrite choose_provider_auto, HA, HO.
Qed.

(** The execution gate of [lal.py]: a run leaves the shell alone, or it
    ran exactly the command the provider produced, the execute flag was
    set, and the user, shown that command, confirmed. *)
Lemma gate w prompt execute provider model config st :
  let st' := snd (main w prompt execute provider model config st) in
  shell st' = shell st \/
  (execute = true /\
   exists p ai command st1,
     prompt = Some p /\
     generate_command w ai p st = (inr command, st1) /\
     confirm_ask w (console st ++ [CommandPanel command]) = inr true /\
     shell st' = shell st ++ [command]).
Proof.
  assert (Hidle : config = true \/ prompt = None \/ prompt = Some "" ->
                  shell (snd (main w prompt execute provider model config st)) = shell st).
  { intros H. destruct (main_idle w prompt execute provider model config st H)
      as [ls ->]. simpl. by rewrite app_nil_r. }
  destruct config; [left; auto|].
  destruct prompt as [p|]; [|left; auto].
  destruct (String.eqb_spec p "") as [->|Hp]; [left; auto|].
  clear Hidle. cbv zeta. rewrite main_run by done.
  assert (Hchoose :
             (exists ls, choose_provider w provider model st = (inr None, after ls [] [] st))
             \/ (exists e, choose_provider w provider model st = (inl e, st))
             \/ (exists ai, choose_provider w provider model st = (inr (Some ai), st))).
  { destruct provider as [v|].
    - rewrite choose_provider_preferred. destruct (nonempty _); eauto 10.
    - rewrite choose_provider_auto. repeat destruct (nonempty _); eauto 10. }
  destruct Hchoose as [[ls ->]|[[e ->]|[ai ->]]];
    [left; simpl; by rewrite app_nil_r..|].
  rewrite generate_and_run_run.
  destruct (generate_command_run w ai p st) as [r Hr]. rewrite Hr.
  destruct r as [e|command]; [left; simpl; by rewrite !app_nil_r|].
  destruct execute; [|left; simpl; by rewrite !app_nil_r].
  simpl console. rewrite app_nil_r.
  destruct (confirm_ask w _) as [e|[|]] eqn:Hconfirm;
    [left; simpl; by rewrite !app_nil_r| |left; simpl; by rewrite !app_nil_r].
  right. split; [done|].
  exists p, ai, command, (after [] (calls_of w ai p) [] st).
  repeat split; [exact Hr|exact Hconfirm|simpl; by rewrite app_nil_r].
Qed.

(** *** Selection at work *)

(** Both keys set, OpenAI preferred: the one call goes to OpenAI, with the
    OpenAI key. *)
Example preferred_vendor_is_called :
  calls (snd (main (Samples.lal (Some "sk-ant-test") (Some "sk-test")
                      (inr [Some "ls -la"]) (inr false))
                (Some "list all files") false (Some OpenAI) None false init))
  = [{| call_vendor := OpenAI; call_api_key := "sk-test";
        call_model := "gpt-4o-mini"; call_content := "Command: list all files" |}].
Proof. reflexivity. Qed.

(** Anthropic preferred, only the OpenAI key set: an error, and no call. *)
Example preferred_vendor_without_key :
  main (Samples.lal None (Some "sk-test") (inr [Some "ls -la"]) (inr true))
    (Some "list all files") true (Some Anthropic) None false init
  = (inr tt,
     {| console := [ErrorLine "ANTHROPIC_API_KEY not set"]; calls := []; shell := [] |}).
Proof. reflexivity. Qed.

(** No preference, both keys set: Anthropic. *)
Example anthropic_by_default :
  map call_vendor
    (calls (snd (main (Samples.lal (Some "sk-ant-test") (Some "sk-test")
                         (inr [Some "ls -la"]) (inr false))
                   (Some "list all files") false None None false init)))
  = [Anthropic].
Proof. reflexivity. Qed.

(** No preference, only the OpenAI key set: OpenAI. *)
Example openai_when_alone :
  map call_vendor
    (calls (snd (main (Samples.lal None (Some "sk-test")
                         (inr [Some "ls -la"]) (inr false))
                   (Some "list all files") false None None false init)))
  = [OpenAI].
Proof. reflexivity. Qed.

End LalSpec.

Module LalSimpleSpec.

Import LalSimple.

Lemma simple_after_nil st : after [] [] [] st = st.
Proof. unfold after. rewrite !app_nil_r. by destruct st. Qed.

Lemma simple_after_after ls cs cmds ls' cs' cmds' st :
  after ls' cs' cmds' (after ls cs cmds st)
  = after (ls ++ ls') (cs ++ cs') (cmds ++ cmds') st.
Proof. unfold after; simpl. by rewrite !app_assoc. Qed.

Lemma simple_print_run l st : print l st = (inr tt, after [l] [] [] st).
Proof. unfold print, modify, after. by rewrite !app_nil_r. Qed.

Lemma make_anthropic_request_run w prompt api_key st :
  exists r,
    make_anthropic_request w prompt api_key st
    = (r, after [] [request_for Anthropic prompt api_key] [] st).
Proof.
  unfold make_anthropic_request, open_url.
  replace (after [] [request_for Anthropic prompt api_key] [] st)
    with {| console := console st;
            calls := calls st ++ [request_for Anthropic prompt api_key];
            shell := shell st |}
    by (unfold after; by rewrite !app_nil_r).
  run. repeat step; eauto.
Qed.

Lemma make_openai_request_run w prompt api_key st :
  exists r,
    make_openai_request w prompt api_key st
    = (r, after [] [request_for OpenAI prompt api_key] [] st).
Proof.
  unfold make_openai_request, open_url.
  replace (after [] [request_for OpenAI prompt api_key] [] st)
    with {| console := console st;
            calls := calls st ++ [request_for OpenAI prompt api_key];
            shell := shell st |}
    by (unfold after; by rewrite !app_nil_r).
  run. repeat step; eauto.
Qed.

(** Lines 166-182: nothing is printed unless a key is missing, nothing is
    run, and a command comes with exactly one call. *)
Lemma request_command_run w provider prompt anthropic_key openai_key st :
  (exists v, request_command w provider prompt anthropic_key openai_key st
             = (inr None, after [KeyNotSet v] [] [] st))
  \/ (exists r c,
        request_command w provider prompt anthropic_key openai_key st
        = (match r with inl e => inl e | inr command => inr (Some command) end,
           after [] [c] [] st)).
Proof.
  unfold request_command.
  repeat match goal with
         | |- context [if ?b then _ else _] => destruct b eqn:?; simpl
         end;
    try (left; unfold bind; rewrite simple_print_run; by eauto);
    right; unfold bind, ret.
  all: first
    [ destruct (make_openai_request_run w prompt openai_key st) as [r ->]
    | destruct (make_anthropic_request_run w prompt anthropic_key st) as [r ->] ];
    exists r; eexists; by destruct r.
Qed.

(** Lines 184-195 in one equation. *)
Lemma show_and_run_run w command execute st :
  show_and_run w command execute st =
    if execute then
      match input w (console st ++ [CommandBox command; ExecutePrompt]) with
      | inl e => (inl e, after [CommandBox command; ExecutePrompt] [] [] st)
      | inr response =>
          if String.eqb (lower response) "y" then
            (inr tt,
             after [CommandBox command; ExecutePrompt; Executing command] [] [command] st)
          else (inr tt, after [CommandBox command; ExecutePrompt] [] [] st)
      end
    else (inr tt, after [CommandBox command; ExecuteHint] [] [] st).
Proof.
  unfold show_and_run, print, read_input, os_system, after. run.
  destruct execute; simpl; [|by rewrite <- !app_assoc, !app_nil_r].
  rewrite <- !app_assoc; simpl.
  destruct (input w _) as [e|response]; simpl; [by rewrite !app_nil_r|].
  destruct (String.eqb (lower response) "y"); simpl;
    by rewrite <- ?app_assoc, ?app_nil_r.
Qed.

(** [main] past the argument and key checks. *)
Lemma simple_main_run w argv0 prompt rest st :
  let argv := argv0 :: prompt :: rest in
  prompt <> "--config" ->
  truthy_str (getenv w "ANTHROPIC_API_KEY") || truthy_str (getenv w "OPENAI_API_KEY") = true ->
  main w argv st =
    match request_command w (provider_flag argv) prompt
            (getenv w "ANTHROPIC_API_KEY") (getenv w "OPENAI_API_KEY") st with
    | (inl e, st1) => (inr tt, after [ErrorLine (str_exn e)] [] [] st1)
    | (inr None, st1) => (inr tt, st1)
    | (inr (Some command), st1) =>
        match show_and_run w command (execute_flag argv) st1 with
        | (inl e, st2) => (inr tt, after [ErrorLine (str_exn e)] [] [] st2)
        | (inr tt, st2) => (inr tt, st2)
        end
    end.
Proof.
  intros argv Hprompt Hkeys. unfold main. subst argv. cbv beta iota zeta.
  destruct (String.eqb_spec prompt "--config"); [done|].
  apply orb_true_iff in Hkeys.
  replace (negb _ && negb _) with false
    by (destruct Hkeys as [-> | ->]; simpl; by rewrite ?andb_false_r).
  unfold try_except at 1, bind at 1.
  destruct (request_command w _ prompt _ _ st) as [[e|[command|]] st1];
    cbv beta iota; [by rewrite simple_print_run| |done].
  destruct (show_and_run w command _ st1) as [[e|[]] st2];
    cbv beta iota; [|done].
  by rewrite simple_print_run.
Qed.

(** In every other case [main] only prints. *)
Lemma simple_main_idle w argv st :
  length argv < 2 \/ nth_error argv 1 = Some "--config"
  \/ truthy_str (getenv w "ANTHROPIC_API_KEY") || truthy_str (getenv w "OPENAI_API_KEY") = false ->
  exists ls, main w argv st = (inr tt, after ls [] [] st).
Proof.
  intros H. unfold main.
  destruct argv as [|argv0 [|prompt rest]]; try (rewrite simple_print_run; by eauto).
  cbv beta iota zeta.
  destruct (String.eqb_spec prompt "--config") as [->|Hprompt].
  - cbv beta iota zeta. unfold bind. rewrite simple_print_run.
    destruct (_ && _); [rewrite simple_print_run, simple_after_after|unfold ret]; eauto.
  - destruct H as [H|[H|H]]; [simpl in H; lia|simpl in H; congruence|].
    apply orb_false_iff in H as [-> ->].
    change (negb false && negb false) with true. cbv beta iota.
    rewrite simple_print_run. eauto.
Qed.

(** Without credentials [lal_simple.py] says so and stops. *)
Lemma simple_unconfigured w argv0 prompt rest st :
  prompt <> "--config" ->
  truthy_str (getenv w "ANTHROPIC_API_KEY") = false ->
  truthy_str (getenv w "OPENAI_API_KEY") = false ->
  main w (argv0 :: prompt :: rest) st = (inr tt, after [NoKeysFound] [] [] st).
Proof.
  intros Hprompt HA HO. unfold main. cbv beta iota zeta.
  destruct (String.eqb_spec prompt "--config"); [done|].
  rewrite HA, HO. simpl. by rewrite simple_print_run.
Qed.

(** The execution gate of [lal_simple.py]. *)
Lemma simple_gate w argv st :
  let st' := snd (main w argv st) in
  shell st' = shell st \/
  (execute_flag argv = true /\
   exists provider prompt anthropic_key openai_key command st1 response,
     request_command w provider prompt anthropic_key openai_key st
       = (inr (Some command), st1) /\
     input w (console st ++ [CommandBox command; ExecutePrompt]) = inr response /\
     lower response = "y" /\
     shell st' = shell st ++ [command]).
Proof.
  cbv zeta.
  assert (Hidle :
            length argv < 2 \/ nth_error argv 1 = Some "--config"
            \/ truthy_str (getenv w "ANTHROPIC_API_KEY")
               || truthy_str (getenv w "OPENAI_API_KEY") = false ->
            shell (snd (main w argv st)) = shell st).
  { intros H. destruct (simple_main_idle w argv st H) as [ls ->]. simpl. by rewrite app_nil_r. }
  destruct argv as [|argv0 [|prompt rest]]; try (left; apply Hidle; simpl; lia).
  destruct (String.eqb_spec prompt "--config") as [->|Hprompt]; [left; auto|].
  destruct (truthy_str (getenv w "ANTHROPIC_API_KEY")
            || truthy_str (getenv w "OPENAI_API_KEY")) eqn:Hkeys; [|left; auto].
  clear Hidle. rewrite simple_main_run by done.
  set (argv := argv0 :: prompt :: rest).
  destruct (request_command_run w (provider_flag argv) prompt
              (getenv w "ANTHROPIC_API_KEY") (getenv w "OPENAI_API_KEY") st)
    as [[v Hr]|(r & c & Hr)]; rewrite Hr;
    [left; simpl; by rewrite app_nil_r|].
  destruct r as [e|command]; [left; simpl; by rewrite !app_nil_r|].
  rewrite show_and_run_run. simpl console. rewrite app_nil_r.
  destruct (execute_flag argv); [|left; simpl; by rewrite !app_nil_r].
  destruct (input w _) as [e|response] eqn:Hinput;
    [left; simpl; by rewrite !app_nil_r|].
  destruct (String.eqb_spec (lower response) "y") as [Hyes|Hno];
    [|left; simpl; by rewrite !app_nil_r].
  right. split; [done|].
  exists (provider_flag argv), prompt, (getenv w "ANTHROPIC_API_KEY"),
    (getenv w "OPENAI_API_KEY"), command, (after [] [c] [] st), response.
  repeat split; [exact Hr|exact Hinput|exact Hyes|simpl; by rewrite app_nil_r].
Qed.

End LalSimpleSpec.

(* ===================================================================== *)
(** ** Properties spanning the server and the tools                       *)
(* ===================================================================== *)

Module Programs.

Lemma nonempty_none o : truthy_str o = false -> nonempty o = None.
Proof. destruct o as [s|]; simpl; [|done]. by destruct (String.eqb s ""). Qed.

(** C6, as the code has it.  With neither credential configured no
    provider is ever called, and:
    - the server answers every well-formed request of a caller under the
      daily limit with 500 "No API keys configured on server", after
      having counted it (a caller at the limit is answered 429 first);
    - [lal.py], given a prompt, prints a configuration error ("... not
      set" for a preferred vendor, "No AI provider configured ..."
      otherwise) and runs nothing;
    - [lal_simple.py], given a prompt, prints that no keys were found and
      runs nothing. *)
Theorem no_credentials :
  (forall w : ApiServer.world,
     truthy_str (ApiServer.ANTHROPIC_API_KEY w) = false ->
     truthy_str (ApiServer.OPENAI_API_KEY w) = false ->
     (forall req st,
        ApiServer.calls (snd (ApiServer.generate_command w req st)) = ApiServer.calls st) /\
     (forall req prompt ip st,
        ApiServer.well_formed req prompt ip ->
        (ApiServer.tracker_get (ApiServer.key_now w ip st) (ApiServer.usage_tracker st)
         < ApiServer.DAILY_LIMIT)%Z ->
        ApiServer.generate_command w req st =
          (inr (ApiServer.ErrorBody "No API keys configured on server", 500%Z),
           ApiServer.charged w (ApiServer.md5_hexdigest w ip) st))) /\
  (forall w : Lal.world,
     truthy_str (Lal.getenv w "ANTHROPIC_API_KEY") = false ->
     truthy_str (Lal.getenv w "OPENAI_API_KEY") = false ->
     forall prompt execute provider model st,
       prompt <> "" ->
       Lal.main w (Some prompt) execute provider model false st =
         (inr tt,
          Lal.after
            match provider with
            | Some v => [Lal.ErrorLine (Lal.env_name v +:+ " not set")]
            | None =>
                [Lal.ErrorLine
                   "No AI provider configured. Set OPENAI_API_KEY or ANTHROPIC_API_KEY environment variable.";
                 Lal.ConfigHint]
            end [] [] st)) /\
  (forall w : LalSimple.world,
     truthy_str (LalSimple.getenv w "ANTHROPIC_API_KEY") = false ->
     truthy_str (LalSimple.getenv w "OPENAI_API_KEY") = false ->
     forall argv0 prompt rest st,
       prompt <> "--config" ->
       LalSimple.main w (argv0 :: prompt :: rest) st =
         (inr tt, LalSimple.after [LalSimple.NoKeysFound] [] [] st)).
Proof.
  split; [|split].
  - intros w HA HO. split.
    + intros req st. by apply ApiServerSpec.keyless_no_calls.
    + intros req prompt ip st Hreq Hunder.
      by apply (ApiServerSpec.keyless_accepted w req prompt).
  - intros w HA%nonempty_none HO%nonempty_none prompt execute provider model st Hprompt.
    by apply LalSpec.unconfigured.
  - intros w HA HO argv0 prompt rest st Hprompt. by apply LalSimpleSpec.simple_unconfigured.
Qed.

(** C6, the claim as the spec words it, fails on the server.  A server
    without keys, started afresh, is sent the same request fifty-one times
    in one day: fifty times it answers with the configuration error, and
    each time it counts the request; the fifty-first answer is the 429 of
    the quota, not a configuration error.  No provider was ever called. *)
Lemma no_credentials_at_the_limit :
  let run := ApiServer.serve Samples.keyless (repeat Samples.list_files 51)
               ApiServer.init in
  truthy_str (ApiServer.ANTHROPIC_API_KEY Samples.keyless) = false /\
  truthy_str (ApiServer.OPENAI_API_KEY Samples.keyless) = false /\
  fst run =
    inr (repeat (ApiServer.ErrorBody "No API keys configured on server", 500%Z) 50
         ++ [(ApiServer.RateLimitBody "Rate limit exceeded"
                "Daily limit of 50 requests reached. Try again tomorrow.", 429%Z)]) /\
  ApiServer.calls (snd run) = [].
Proof. vm_compute. done. Qed.

(** C8.  The execution gate of the two tools.  Whatever the arguments,
    the environment, the vendors and the user do, a run either hands
    nothing to the shell, or hands it exactly one command, and then: the
    execute flag was set, that command is the one the provider call
    produced, and the user, shown it, confirmed ([Confirm.ask] answered
    yes; in [lal_simple.py] the line typed is "y" or "Y").  So without the
    execute flag, or when confirmation is not given, nothing is run. *)
Theorem execution_gate :
  (forall (w : Lal.world) prompt execute provider model config st,
     let st' := snd (Lal.main w prompt execute provider model config st) in
     (Lal.shell st' = Lal.shell st \/
      (execute = true /\
       exists p ai command st1,
         prompt = Some p /\
         Lal.generate_command w ai p st = (inr command, st1) /\
         Lal.confirm_ask w (Lal.console st ++ [Lal.CommandPanel command]) = inr true /\
         Lal.shell st' = Lal.shell st ++ [command])) /\
     (execute = false -> Lal.shell st' = Lal.shell st) /\
     ((forall shown, Lal.confirm_ask w shown <> inr true) ->
      Lal.shell st' = Lal.shell st)) /\
  (forall (w : LalSimple.world) argv st,
     let st' := snd (LalSimple.main w argv st) in
     (LalSimple.shell st' = LalSimple.shell st \/
      (LalSimple.execute_flag argv = true /\
       exists provider prompt anthropic_key openai_key command st1 response,
         LalSimple.request_command w provider prompt anthropic_key openai_key st
           = (inr (Some command), st1) /\
         LalSimple.input w
           (LalSimple.console st ++ [LalSimple.CommandBox command; LalSimple.ExecutePrompt])
           = inr response /\
         lower response = "y" /\
         LalSimple.shell st' = LalSimple.shell st ++ [command])) /\
     (LalSimple.execute_flag argv = false -> LalSimple.shell st' = LalSimple.shell st) /\
     ((forall shown response,
         LalSimple.input w shown = inr response -> lower response <> "y") ->
      LalSimple.shell st' = LalSimple.shell st)).
Proof.
  split.
  - intros w prompt execute provider model config st st'.
    pose proof (LalSpec.gate w prompt execute provider model config st) as Hgate.
    fold st' in Hgate. split; [exact Hgate|].
    split.
    + intros ->. by destruct Hgate as [?|[? _]].
    + intros Hdeclined.
      destruct Hgate as [?|(_ & p & ai & command & st1 & _ & _ & Hyes & _)]; [done|].
      by destruct (Hdeclined _ Hyes).
  - intros w argv st st'.
    pose proof (LalSimpleSpec.simple_gate w argv st) as Hgate.
    fold st' in Hgate. split; [exact Hgate|].
    split.
    + intros Hflag.
      destruct Hgate as [?|[Hset _]]; [done|]. congruence.
    + intros Hdeclined.
      destruct Hgate
        as [?|(_ & pv & p & ak & ok & command & st1 & response & _ & Hin & Hyes & _)];
        [done|].
      by destruct (Hdeclined _ _ Hin).
Qed.

(** The gate at work: the same run of [lal.py] with and without the
    user's consent. *)
Example confirmed_run :
  Lal.shell (snd (Lal.main (Samples.lal None (Some "sk-test") (inr [Some " ls -la "]) (inr true))
                    (Some "list all files") true None None false Lal.init))
  = ["ls -la"].
Proof. reflexivity. Qed.

Example declined_run :
  Lal.shell (snd (Lal.main (Samples.lal None (Some "sk-test") (inr [Some " ls -la "]) (inr false))
                    (Some "list all files") true None None false Lal.init))
  = [].
Proof. reflexivity. Qed.

Example typed_yes_run :
  LalSimple.shell
    (snd (LalSimple.main
            (Samples.lal_simple (Some "sk-ant-test") None
               (inr (inr (JObj [("content", JArr [JObj [("text", JStr "ls -la")]])])))
               (inr "Y"))
            ["lal_simple.py"; "list all files"; "-e"] LalSimple.init))
  = ["ls -la"].
Proof. reflexivity. Qed.

End Programs.

(* ===================================================================== *)
(** ** More on the server: answers, calls and the tracker                 *)
(* ===================================================================== *)

Module ApiServerMore.

Import ApiServer ApiServerSpec.

(** What lines 118-142 answer: a command with a 200, or an error with a 500. *)
Lemma generate_after_quota_shape w user_id prompt st :
  let resp := surfaced (fst (generate_after_quota w user_id prompt st)) in
  (exists command remaining, resp = (CommandBody command remaining, 200%Z))
  \/ (exists msg, resp = (ErrorBody msg, 500%Z)).
Proof.
  destruct (generate_after_quota_run w user_id prompt st) as (cs & _ & _ & Hrun).
  destruct (fst (dispatch w prompt st)) as [e|[early|cmd]].
  - rewrite Hrun. right. simpl. eauto.
  - destruct Hrun as [[msg ->] ->]. right. simpl. eauto.
  - rewrite Hrun. left. simpl. eauto.
Qed.

(** A request that is not well formed: an error body with a 400 or a 500,
    and the state as it was. *)
Lemma ill_formed_answer w req st :
  (forall prompt ip, ~ well_formed req prompt ip) ->
  exists msg code,
    generate_command w req st = (inr (ErrorBody msg, code), st) /\
    (code = 400%Z \/ code = 500%Z).
Proof.
  intros Hno. unfold generate_command, get_user_id, prompt_missing.
  destruct (get_json req) as [e|data] eqn:Hjson; run; [by eauto 10|].
  destruct (truthy data) eqn:Htruthy; simpl; [|by eauto 10].
  destruct data; simpl in *; try by eauto 10.
  - destruct (substring_of "prompt" s); simpl; eauto 10.
  - destruct (existsb (is_str "prompt") items); simpl; eauto 10.
  - destruct (assoc "prompt" fields) as [prompt|] eqn:Hprompt; simpl; [|by eauto 10].
    destruct (remote_addr req) as [ip|] eqn:Hip; simpl; [|by eauto 10].
    destruct (Hno prompt ip). by exists fields.
Qed.

(** X1.  [POST /generate] always answers: no exception leaves the
    handler, the status is 200, 400, 429 or 500, and it is 200 exactly
    when the body carries a command. *)
Theorem always_answers w req st :
  exists b code st',
    generate_command w req st = (inr (b, code), st') /\
    (code = 200%Z \/ code = 400%Z \/ code = 429%Z \/ code = 500%Z) /\
    (code = 200%Z <-> exists command remaining, b = CommandBody command remaining).
Proof.
  destruct (well_formed_dec req) as [(prompt & ip & Hreq)|Hill].
  - destruct (Z.lt_ge_cases (tracker_get (key_now w ip st) (usage_tracker st))
                DAILY_LIMIT) as [Hlt|Hge].
    + rewrite (generate_command_accepted w req prompt ip st Hreq Hlt).
      pose proof (generate_after_quota_shape w (md5_hexdigest w ip) prompt
                    (charged w (md5_hexdigest w ip) st)) as Hshape.
      destruct (generate_after_quota _ _ _ _) as [r st'].
      simpl in Hshape. destruct Hshape as [(c & rem & ->)|(msg & ->)].
      * eexists _, _, _. split; [done|]. split; [by left|]. split; eauto.
      * eexists _, _, _. split; [done|]. split; [by do 3 right|].
        split; [done|]. by intros (? & ? & ?).
    + rewrite (generate_command_rejected w req prompt ip st Hreq Hge).
      eexists _, _, _. split; [done|]. split; [by right; right; left|].
      split; [done|]. by intros (? & ? & ?).
  - destruct (ill_formed_answer w req st Hill) as (msg & code & -> & Hcode).
    eexists _, _, _. split; [done|].
    split; [destruct Hcode as [-> | ->]; auto|].
    split; [by destruct Hcode as [-> | ->]|]. by intros (? & ? & ?).
Qed.

(** X2.  A request that does not get as far as the quota check (its body
    cannot be decoded, is not an object holding a prompt, or the peer
    address is unknown) is answered with an error body and a 400 or a 500,
    and costs nothing: tracker, calls and clock are as they were. *)
Theorem ill_formed_request_costs_nothing w req st
    (Hill : forall prompt ip, ~ well_formed req prompt ip) :
  exists msg code,
    generate_command w req st = (inr (ErrorBody msg, code), st) /\
    (code = 400%Z \/ code = 500%Z).
Proof. by apply ill_formed_answer. Qed.

(** The tracker after a request: as it was, or one more under the
    caller's key of the day. *)
Lemma tracker_step w req st :
  usage_tracker (snd (generate_command w req st)) = usage_tracker st
  \/ exists ip,
       remote_addr req = Some ip /\
       (tracker_get (key_now w ip st) (usage_tracker st) < DAILY_LIMIT)%Z /\
       usage_tracker (snd (generate_command w req st))
       = count_one (key_now w ip st) (usage_tracker st).
Proof.
  destruct (well_formed_dec req) as [(prompt & ip & Hreq)|Hill].
  - destruct (Z.lt_ge_cases (tracker_get (key_now w ip st) (usage_tracker st))
                DAILY_LIMIT) as [Hlt|Hge].
    + right. exists ip. split; [by destruct Hreq as (? & _ & _ & ?)|]. split; [done|].
      rewrite (generate_command_accepted w req prompt ip st Hreq Hlt).
      destruct (generate_after_quota_frame w (md5_hexdigest w ip) prompt
                  (charged w (md5_hexdigest w ip) st))
        as (r & st' & -> & Htracker & _).
      simpl. by rewrite Htracker.
    + left. by rewrite (generate_command_rejected w req prompt ip st Hreq Hge).
  - left. by destruct (ill_formed_answer w req st Hill) as (msg & code & -> & _).
Qed.

(** X3.  What one request does to the tracker, in full: nothing, or
    the count under the caller's key of the day, which was below
    DAILY_LIMIT, goes up by one.  Every other entry (other callers, other
    days) is left as it was. *)
Theorem tracker_effect w req st :
  let st' := snd (generate_command w req st) in
  usage_tracker st' = usage_tracker st
  \/ exists ip,
       remote_addr req = Some ip /\
       (tracker_get (key_now w ip st) (usage_tracker st) < DAILY_LIMIT)%Z /\
       tracker_get (key_now w ip st) (usage_tracker st')
       = (tracker_get (key_now w ip st) (usage_tracker st) + 1)%Z /\
       forall key, key <> key_now w ip st ->
                   usage_tracker st' !! key = usage_tracker st !! key.
Proof.
  intros st'. subst st'.
  destruct (tracker_step w req st) as [Hsame|(ip & Hip & Hunder & Hone)]; [by left|].
  right. exists ip. rewrite Hone. repeat split; try done.
  - apply tracker_get_count_one.
  - intros key Hkey. unfold count_one. by rewrite lookup_insert_ne.
Qed.

(** [serve] never raises, and answers every request. *)
Lemma serve_total w reqs st :
  exists resps,
    fst (serve w reqs st) = inr resps /\ length resps = length reqs.
Proof.
  revert st. induction reqs as [|req reqs IH]; intros st; [by exists []|].
  rewrite serve_cons.
  destruct (generate_command_total w req st) as (resp & st1 & ->).
  destruct (IH st1) as (resps & Hresps & Hlen).
  destruct (serve w reqs st1) as [[e|rs] st2]; simpl in *; [done|].
  injection Hresps as ->. exists (resp :: resps). simpl. by rewrite Hlen.
Qed.

(** What every request preserves, the whole run preserves. *)
Lemma serve_preserves w (P : state -> Prop) :
  (forall req st, P st -> P (snd (generate_command w req st))) ->
  forall reqs st, P st -> P (snd (serve w reqs st)).
Proof.
  intros Hstep reqs. induction reqs as [|req reqs IH]; intros st HP; [done|].
  rewrite serve_cons. specialize (Hstep req st HP).
  destruct (generate_command_total w req st) as (resp & st1 & Hreq).
  rewrite Hreq in Hstep |- *. simpl in Hstep. specialize (IH st1 Hstep).
  by destruct (serve w reqs st1) as [[e|rs] st2].
Qed.

(** X4.  Over any run of requests, whoever sends them and whatever the
    clock does, no entry of the tracker is ever removed and no count ever
    goes down. *)
Theorem counts_never_decrease w reqs st key n :
  let st' := snd (serve w reqs st) in
  usage_tracker st !! key = Some n ->
  exists n', usage_tracker st' !! key = Some n' /\ (n <= n')%Z.
Proof.
  intros st'. subst st'. intros Hkey.
  apply (serve_preserves w
           (fun s => exists n', usage_tracker s !! key = Some n' /\ (n <= n')%Z));
    [|exists n; split; [done|lia]].
  clear. intros req st (n' & Hn' & Hle).
  destruct (tracker_step w req st) as [-> |(ip & _ & _ & ->)]; [by eauto|].
  unfold count_one, tracker_get.
  destruct (decide (key_now w ip st = key)) as [<-|Hne].
  - rewrite lookup_insert_eq, Hn'. simpl. eexists. split; [done|lia].
  - rewrite lookup_insert_ne by done. eauto.
Qed.

Lemma within_limit_step w req st :
  within_limit (usage_tracker st) ->
  within_limit (usage_tracker (snd (generate_command w req st))).
Proof.
  intros Hin.
  destruct (tracker_step w req st) as [-> |(ip & _ & Hunder & ->)]; [done|].
  intros key n. unfold count_one.
  destruct (decide (key_now w ip st = key)) as [<-|Hne].
  - rewrite lookup_insert_eq. intros [= <-].
    unfold tracker_get in *.
    destruct (usage_tracker st !! key_now w ip st) as [m|] eqn:Hm; simpl in *.
    + specialize (Hin _ _ Hm). lia.
    + unfold DAILY_LIMIT. lia.
  - rewrite lookup_insert_ne by done. apply Hin.
Qed.

(** X5.  In a process started afresh, after any run of requests, every
    count in the tracker lies between 1 and DAILY_LIMIT, so what
    [GET /usage/<token>] reports, for any token, is never negative and
    never more than DAILY_LIMIT: 0 <= used_today, remaining_today <= 50. *)
Theorem usage_stays_in_range w reqs user_token :
  let st := snd (serve w reqs init) in
  within_limit (usage_tracker st) /\
  exists used remaining date st',
    get_usage w user_token st
    = (inr (UsageBody DAILY_LIMIT used remaining date, 200%Z), st') /\
    (0 <= used <= DAILY_LIMIT)%Z /\ (0 <= remaining <= DAILY_LIMIT)%Z.
Proof.
  intros st.
  assert (Hin : within_limit (usage_tracker st)).
  { apply (serve_preserves w (fun s => within_limit (usage_tracker s)));
      [apply within_limit_step|].
    intros key n. simpl. by rewrite lookup_empty. }
  split; [done|].
  set (date := strftime_now w (clock_reads st)).
  set (used := tracker_get (quota_key user_token date) (usage_tracker st)).
  exists used, (DAILY_LIMIT - used)%Z, date, (ticked st). split; [done|].
  assert (0 <= used <= DAILY_LIMIT)%Z; [|lia].
  subst used. unfold tracker_get.
  destruct (usage_tracker st !! _) as [m|] eqn:Hm; simpl.
  - specialize (Hin _ _ Hm). lia.
  - unfold DAILY_LIMIT. lia.
Qed.


(** X7.  [GET /usage/<token>] and [POST /generate] agree when the token
    is the hash of the caller's address: right after a request of [ip] was
    answered with a command and remaining_requests = r, and on the same
    day, the usage of token md5(ip) is remaining_today = r and
    used_today = DAILY_LIMIT - r. *)
Theorem usage_agrees_with_generate w d req st command remaining st' ip
    (Hday : forall n, strftime_now w n = d)
    (Hanswer :
       generate_command w req st = (inr (CommandBody command remaining, 200%Z), st'))
    (Hip : remote_addr req = Some ip) :
  fst (get_usage w (md5_hexdigest w ip) st')
  = inr (UsageBody DAILY_LIMIT (DAILY_LIMIT - remaining) remaining d, 200%Z).
Proof.
  destruct (success_remaining w d req st command remaining st' ip Hday Hanswer Hip)
    as [-> Htracker].
  unfold get_usage, today. run. rewrite Hday, Htracker, tracker_get_count_one.
  do 3 f_equal. lia.
Qed.

(** X8.  The provider calls of one request: none unless the request is
    well formed, and then none, one (to either vendor), or two, first
    Anthropic and then OpenAI; never two to the same vendor, never OpenAI
    before Anthropic.  Each carries the prompt of that request. *)
Theorem calls_of_one_request w req st :
  let st' := snd (generate_command w req st) in
  calls st' = calls st
  \/ exists prompt ip,
       well_formed req prompt ip /\
       (calls st' = calls st ++ [anthropic_request w prompt]
        \/ calls st' = calls st ++ [openai_request w prompt]
        \/ calls st' = calls st ++ [anthropic_request w prompt; openai_request w prompt]).
Proof.
  intros st'. subst st'.
  destruct (well_formed_dec req) as [(prompt & ip & Hreq)|Hill].
  2: { left. by destruct (ill_formed_answer w req st Hill) as (msg & code & -> & _). }
  destruct (Z.lt_ge_cases (tracker_get (key_now w ip st) (usage_tracker st))
              DAILY_LIMIT) as [Hlt|Hge].
  2: { left. by rewrite (generate_command_rejected w req prompt ip st Hreq Hge). }
  rewrite (generate_command_accepted w req prompt ip st Hreq Hlt).
  set (st1 := charged w (md5_hexdigest w ip) st).
  destruct (generate_after_quota_run w (md5_hexdigest w ip) prompt st1)
    as (cs & _ & Hsnd & Hrun).
  destruct (dispatch_frame w prompt st1) as (rd & cs' & Hd & Hcs).
  rewrite Hd in Hsnd, Hrun. simpl in Hsnd, Hrun.
  assert (cs' = cs) as ->.
  { injection Hsnd as Hc. simpl in Hc. by apply app_inv_head in Hc. }
  assert (Hcalls : calls (snd (generate_after_quota w (md5_hexdigest w ip) prompt st1))
                   = calls st ++ cs).
  { destruct rd as [e|[early|cmd]].
    - by rewrite Hrun.
    - destruct Hrun as [_ ->]. done.
    - by rewrite Hrun. }
  destruct (generate_after_quota w (md5_hexdigest w ip) prompt st1) as [r st2].
  simpl in Hcalls |- *.
  rewrite Hcalls.
  destruct Hcs as [-> |[-> |[-> | ->]]].
  - left. by rewrite app_nil_r.
  - right. exists prompt, ip. auto.
  - right. exists prompt, ip. auto.
  - right. exists prompt, ip. auto.
Qed.

Lemma call_to_run w v prompt st :
  exists r, call_to w v prompt st = (r, logged [request_to w v prompt] st).
Proof. destruct v; [apply call_anthropic_run|apply call_openai_run]. Qed.

(** [dispatch] when exactly one key is set: that vendor's call, and
    nothing after it. *)
Lemma dispatch_single w v prompt st :
  truthy_str (api_key_of w v) = true ->
  truthy_str (api_key_of w (other v)) = false ->
  dispatch w prompt st =
    match call_to w v prompt st with
    | (inr command, st1) => (inr (inr command), st1)
    | (inl e, st1) => (inl e, st1)
    end.
Proof.
  destruct v; simpl; intros Hset Hother.
  - rewrite dispatch_anthropic by done.
    destruct (call_anthropic w prompt st) as [[e|command] st1]; [|done].
    unfold falls_back. by rewrite Hother, andb_false_r.
  - by apply dispatch_openai_only.
Qed.

(** X9.  With exactly one credential configured, a well-formed request
    of a caller under the limit makes exactly one provider call, to the
    vendor whose key is set.  If it delivers, the answer is a 200 with its
    command; if it fails, in whatever way, there is no second call and the
    answer is a 500 with the failure's message. *)
Theorem single_credential w v req prompt ip st
    (Hreq : well_formed req prompt ip)
    (Hunder : (tracker_get (key_now w ip st) (usage_tracker st) < DAILY_LIMIT)%Z)
    (Hset : truthy_str (api_key_of w v) = true)
    (Hother : truthy_str (api_key_of w (other v)) = false) :
  exists r st2,
    call_to w v prompt (charged w (md5_hexdigest w ip) st) = (r, st2) /\
    calls st2 = calls st ++ [request_to w v prompt] /\
    match r with
    | inl e => generate_command w req st = (inr (ErrorBody (str_exn e), 500%Z), st2)
    | inr command =>
        exists remaining,
          generate_command w req st
          = (inr (CommandBody command remaining, 200%Z), ticked st2)
    end.
Proof.
  pose proof (generate_command_accepted w req prompt ip st Hreq Hunder) as Hgen.
  set (st1 := charged w (md5_hexdigest w ip) st) in *.
  unfold generate_after_quota, bind at 1 in Hgen.
  rewrite (dispatch_single w v prompt st1 Hset Hother) in Hgen.
  destruct (call_to_run w v prompt st1) as [r Hr]. rewrite Hr in Hgen.
  exists r, (logged [request_to w v prompt] st1).
  split; [done|]. split; [done|].
  destruct r as [e|command]; [done|].
  unfold today in Hgen; run. eauto.
Qed.

(** What [call_anthropic] makes of an answer that is not a 200 and whose
    body is a JSON object: the exception the fallback guard looks for. *)
Lemma call_anthropic_non_200 w prompt st resp fields :
  requests_post w (calls st) (anthropic_request w prompt) = inr resp ->
  status_code resp <> 200%Z ->
  response_json resp = inr (JObj fields) ->
  exists e,
    call_anthropic w prompt st = (inl e, logged [anthropic_request w prompt] st) /\
    String.prefix "API error" (str_exn e) = true.
Proof.
  intros Hpost Hstatus Hbody. unfold call_anthropic, post, logged. run.
  rewrite Hpost, Hbody. apply Z.eqb_neq in Hstatus. rewrite Hstatus. simpl.
  eexists. split; [done|]. reflexivity.
Qed.

(** X10.  Both keys set: whenever Anthropic answers a well-formed
    request of a caller under the limit with a status other than 200 and a
    JSON object as body, whatever the status and whatever the object, the
    server goes on to call OpenAI, once. *)
Theorem non_200_answer_falls_back w req prompt ip st resp fields
    (Hreq : well_formed req prompt ip)
    (Hunder : (tracker_get (key_now w ip st) (usage_tracker st) < DAILY_LIMIT)%Z)
    (Hanthropic : truthy_str (ANTHROPIC_API_KEY w) = true)
    (Hopenai : truthy_str (OPENAI_API_KEY w) = true)
    (Hpost : requests_post w (calls st) (anthropic_request w prompt) = inr resp)
    (Hstatus : status_code resp <> 200%Z)
    (Hbody : response_json resp = inr (JObj fields)) :
  calls (snd (generate_command w req st))
  = calls st ++ [anthropic_request w prompt; openai_request w prompt].
Proof.
  rewrite (generate_command_accepted w req prompt ip st Hreq Hunder).
  set (st1 := charged w (md5_hexdigest w ip) st).
  destruct (call_anthropic_non_200 w prompt st1 resp fields Hpost Hstatus Hbody)
    as (e & Hprimary & Hprefix).
  unfold generate_after_quota, bind at 1.
  rewrite (dispatch_anthropic w prompt st1 Hanthropic), Hprimary.
  unfold falls_back. rewrite Hprefix, Hopenai, Hanthropic. simpl.
  destruct (call_openai_run w prompt (logged [anthropic_request w prompt] st1))
    as [r2 ->].
  destruct r2 as [fe|command]; unfold today; run; by rewrite <- app_assoc.
Qed.

(** X11.  The success path end to end.  When Anthropic answers 200
    with a body whose ["content"] is a list starting with an object whose
    ["text"] is a string, the server answers 200 with that string stripped
    as the command, after that one call. *)
Theorem anthropic_answer_is_trimmed w req prompt ip st resp fields block rest text
    (Hreq : well_formed req prompt ip)
    (Hunder : (tracker_get (key_now w ip st) (usage_tracker st) < DAILY_LIMIT)%Z)
    (Hanthropic : truthy_str (ANTHROPIC_API_KEY w) = true)
    (Hpost : requests_post w (calls st) (anthropic_request w prompt) = inr resp)
    (Hstatus : status_code resp = 200%Z)
    (Hbody : response_json resp = inr (JObj fields))
    (Hcontent : assoc "content" fields = Some (JArr (JObj block :: rest)))
    (Htext : assoc "text" block = Some (JStr text)) :
  exists remaining st',
    generate_command w req st
    = (inr (CommandBody (str_strip (py w) text) remaining, 200%Z), st') /\
    calls st' = calls st ++ [anthropic_request w prompt].
Proof.
  rewrite (generate_command_accepted w req prompt ip st Hreq Hunder).
  set (st1 := charged w (md5_hexdigest w ip) st).
  assert (Hcall : call_anthropic w prompt st1
                  = (inr (str_strip (py w) text),
                     logged [anthropic_request w prompt] st1)).
  { unfold call_anthropic, post, logged. run.
    rewrite Hpost, Hbody, Hstatus. simpl. rewrite Hcontent. simpl.
    by rewrite Htext. }
  unfold generate_after_quota, bind at 1.
  rewrite (dispatch_anthropic w prompt st1 Hanthropic), Hcall.
  unfold today; run. eauto.
Qed.

(** *** The theorems at work on concrete servers *)

Import Samples.

(** X2 at work: a body that is the number 5 is answered 500, not 400. *)
Lemma ill_formed_request_costs_nothing_witness :
  generate_command (healthy (always "2025-01-01")) number_body init
  = (inr (ErrorBody "argument of type 'int' is not iterable", 500%Z), init).
Proof.
  destruct (ill_formed_request_costs_nothing (healthy (always "2025-01-01"))
              number_body init) as (msg & code & Hanswer & _).
  - intros prompt ip (fields & Hjson & _). discriminate.
  - rewrite Hanswer. vm_compute in Hanswer. by injection Hanswer as <- <-.
Defined.

(** X4 at work: the exhausted caller's count survives two more requests. *)
Lemma counts_never_decrease_witness :
  exists n',
    usage_tracker (snd (serve (healthy (always "2025-01-02")) [list_files; list_files]
                          exhausted))
      !! "f528764d624db129b32c21fbca0cb8d6:2025-01-01" = Some n' /\ (50 <= n')%Z.
Proof.
  apply (counts_never_decrease (healthy (always "2025-01-02")) [list_files; list_files]
           exhausted "f528764d624db129b32c21fbca0cb8d6:2025-01-01" 50).
  reflexivity.
Defined.


(** X7 at work: one request, then the usage of the caller's token. *)
Lemma usage_agrees_with_generate_witness :
  fst (get_usage (healthy (always "2025-01-01")) "f528764d624db129b32c21fbca0cb8d6"
         (snd (generate_command (healthy (always "2025-01-01")) list_files init)))
  = inr (UsageBody 50 1 49 "2025-01-01", 200%Z).
Proof.
  apply (usage_agrees_with_generate (healthy (always "2025-01-01")) "2025-01-01"
           list_files init "ls -la" 49 _ "127.0.0.1").
  - intros n. reflexivity.
  - vm_compute. reflexivity.
  - reflexivity.
Defined.

(** X9 at work: only the OpenAI key, and OpenAI answers 401.  Its
    "API error" does not lead to any second call. *)
Lemma single_credential_witness :
  fst (generate_command openai_only list_files init)
    = inr (ErrorBody "API error: Incorrect API key provided", 500%Z) /\
  calls (snd (generate_command openai_only list_files init))
    = [openai_request openai_only (JStr "list all files")].
Proof.
  destruct (single_credential openai_only OpenAI list_files (JStr "list all files")
              "127.0.0.1" init) as (r & st2 & Hcall & Hcalls & Hanswer).
  - exact list_files_well_formed.
  - vm_compute. reflexivity.
  - reflexivity.
  - reflexivity.
  - vm_compute in Hcall. injection Hcall as <- <-.
    rewrite Hanswer. split; vm_compute; reflexivity.
Defined.

(** X10 at work: Anthropic answers 529. *)
Lemma non_200_answer_falls_back_witness :
  calls (snd (generate_command both_refusing list_files init))
  = [anthropic_request both_refusing (JStr "list all files");
     openai_request both_refusing (JStr "list all files")].
Proof.
  apply (non_200_answer_falls_back both_refusing list_files (JStr "list all files")
           "127.0.0.1" init anthropic_overloaded
           [("type", JStr "error"); ("error", JStr "Overloaded")]).
  - exact list_files_well_formed.
  - vm_compute. reflexivity.
  - reflexivity.
  - reflexivity.
  - reflexivity.
  - discriminate.
  - reflexivity.
Defined.

(** X11 at work: " ls -la " comes back as "ls -la". *)
Lemma anthropic_answer_is_trimmed_witness :
  fst (generate_command (healthy (always "2025-01-01")) list_files init)
  = inr (CommandBody "ls -la" 49, 200%Z).
Proof.
  destruct (anthropic_answer_is_trimmed (healthy (always "2025-01-01")) list_files
              (JStr "list all files") "127.0.0.1" init anthropic_ok
              [("content", JArr [JObj [("type", JStr "text"); ("text", JStr " ls -la ")]])]
              [("type", JStr "text"); ("text", JStr " ls -la ")] [] " ls -la ")
    as (remaining & st' & Hanswer & _).
  - exact list_files_well_formed.
  - vm_compute. reflexivity.
  - reflexivity.
  - reflexivity.
  - reflexivity.
  - reflexivity.
  - reflexivity.
  - reflexivity.
  - rewrite Hanswer. vm_compute in Hanswer. by injection Hanswer as <- _.
Defined.

End ApiServerMore.

(* ===================================================================== *)
(** ** More on lal.py: what a run prints, calls and runs                  *)
(* ===================================================================== *)

Module LalMore.

Import Lal LalSpec.

(** [choose_provider] prints at most a line, and changes nothing when it
    delivers a provider or raises. *)
Lemma choose_provider_cases w provider model st :
  (exists ls, choose_provider w provider model st = (inr None, after ls [] [] st))
  \/ (exists e, choose_provider w provider model st = (inl e, st))
  \/ (exists ai, choose_provider w provider model st = (inr (Some ai), st)).
Proof.
  destruct provider as [v|].
  - rewrite choose_provider_preferred. destruct (nonempty _); eauto 10.
  - rewrite choose_provider_auto. repeat destruct (nonempty _); eauto 10.
Qed.

Lemma calls_of_length w ai prompt : length (calls_of w ai prompt) <= 1.
Proof. unfold calls_of. destruct (sdk_client w _); simpl; lia. Qed.

(** A provider object that delivers a command has made its call. *)
Lemma generate_command_called w ai prompt st command st1 :
  generate_command w ai prompt st = (inr command, st1) ->
  calls_of w ai prompt = [provider_request ai prompt].
Proof.
  unfold generate_command, calls_of.
  destruct (sdk_client w (provider_vendor ai)) as [e|]; [|done].
  run. discriminate.
Qed.

(** What a run of [main] adds to the calls and to the shell. *)
Lemma main_effects w prompt execute provider model config st :
  exists ls cs cmds,
    main w prompt execute provider model config st = (inr tt, after ls cs cmds st) /\
    length cs <= 1 /\ length cmds <= 1 /\ (cs = [] -> cmds = []).
Proof.
  assert (Hidle : config = true \/ prompt = None \/ prompt = Some "" ->
                  exists ls cs cmds,
                    main w prompt execute provider model config st
                    = (inr tt, after ls cs cmds st) /\
                    length cs <= 1 /\ length cmds <= 1 /\ (cs = [] -> cmds = [])).
  { intros H. destruct (main_idle w prompt execute provider model config st H)
      as [ls ->]. exists ls, [], []. simpl. auto. }
  destruct config; [auto|].
  destruct prompt as [p|]; [|auto].
  destruct (String.eqb_spec p "") as [->|Hp]; [auto|].
  clear Hidle. rewrite main_run by done.
  destruct (choose_provider_cases w provider model st) as [[ls ->]|[[e ->]|[ai ->]]].
  - exists ls, [], []. simpl. auto.
  - exists (error_lines e), [], []. simpl. auto.
  - rewrite generate_and_run_run.
    destruct (generate_command_run w ai p st) as [r Hr].
    pose proof (calls_of_length w ai p) as Hcs.
    destruct r as [e|command].
    + rewrite Hr, after_after. eexists _, _, _. split; [reflexivity|].
      simpl. rewrite ?app_nil_r. repeat apply conj; (done || lia).
    + rewrite Hr. rewrite (generate_command_called w ai p st command _ Hr).
      destruct execute; [destruct (confirm_ask w _) as [e|[|]]|];
        rewrite ?after_after; eexists _, _, _; (split; [reflexivity|]);
        simpl; repeat apply conj; (done || lia).
Qed.

(** X12.  Whatever the arguments, the environment, the SDK and the user
    do, a run of [lal.py] asks a provider at most once (there is no
    fallback to the other vendor, even with both keys set) and hands at
    most one command to the shell, and none in a run that asked no
    provider. *)
Theorem lal_calls_and_commands w prompt execute provider model config st :
  let st' := snd (main w prompt execute provider model config st) in
  exists cs cmds,
    calls st' = calls st ++ cs /\
    shell st' = shell st ++ cmds /\
    length cs <= 1 /\ length cmds <= 1 /\ (cs = [] -> cmds = []).
Proof.
  intros st'. subst st'.
  destruct (main_effects w prompt execute provider model config st)
    as (ls & cs & cmds & -> & Hcs & Hcmds & Hnone).
  by exists cs, cmds.
Qed.

(** Every failure of a provider object comes out of [generate_command]
    as a plain [Exception] whose message names the vendor. *)
Lemma generate_command_failure w ai prompt st e st1 :
  generate_command w ai prompt st = (inl e, st1) ->
  exists cause,
    e = PyExn Exception
          (vendor_label (provider_vendor ai) +:+ " API error: " +:+ cause).
Proof.
  unfold generate_command, try_except.
  destruct (bind _ _ st) as [[e0|text] st0]; unfold raise.
  - intros [= <- _]. eauto.
  - discriminate.
Qed.

Lemma api_in_failure v cause :
  substring_of "API" (vendor_label v +:+ " API error: " +:+ cause) = true.
Proof. by destruct v. Qed.

(** X13.  Whatever goes wrong in a provider call of [lal.py] (the SDK
    missing, the network, the vendor refusing, an answer without text),
    it leaves the provider object as a plain [Exception] whose message is
    the vendor's name, " API error: " and the cause; so the message holds
    "API", the test [main] makes before it adds its hint.  After it the
    run asks no provider again and hands nothing to the shell. *)
Theorem provider_failure_is_api_error w prompt execute provider model ai st e st1
    (Hprompt : prompt <> "")
    (Hchosen : choose_provider w provider model st = (inr (Some ai), st))
    (Hfailed : generate_command w ai prompt st = (inl e, st1)) :
  let st' := snd (main w (Some prompt) execute provider model false st) in
  (exists cause,
     e = PyExn Exception
           (vendor_label (provider_vendor ai) +:+ " API error: " +:+ cause)) /\
  substring_of "API" (str_exn e) = true /\
  calls st' = calls st1 /\
  shell st' = shell st.
Proof.
  intros st'. subst st'.
  destruct (generate_command_failure w ai prompt st e st1 Hfailed) as [cause ->].
  split; [by exists cause|].
  split; [apply api_in_failure|].
  rewrite main_run, Hchosen, generate_and_run_run, Hfailed by done.
  destruct (generate_command_run w ai prompt st) as [r Hr].
  rewrite Hfailed in Hr. injection Hr as _ ->. simpl. by rewrite !app_nil_r.
Qed.

(** X14.  Without [--provider], [--model] has no effect: whatever it
    is, a run makes no call or one call, and that call names the default
    model of the vendor it goes to. *)
Theorem model_ignored_without_provider w prompt execute model config st :
  let st' := snd (main w prompt execute None model config st) in
  main w prompt execute None model config st
  = main w prompt execute None None config st /\
  (calls st' = calls st
   \/ exists c,
        calls st' = calls st ++ [c] /\
        call_model c = default_model (call_vendor c)).
Proof.
  intros st'. subst st'. split; [done|].
  assert (Hidle : config = true \/ prompt = None \/ prompt = Some "" ->
                  calls (snd (main w prompt execute None model config st)) = calls st).
  { intros H. destruct (main_idle w prompt execute None model config st H)
      as [ls ->]. simpl. by rewrite app_nil_r. }
  destruct config; [left; auto|].
  destruct prompt as [p|]; [|left; auto].
  destruct (String.eqb_spec p "") as [->|Hp]; [left; auto|].
  clear Hidle.
  assert (Hai : forall v key,
            calls_of w (provider_for v key None) p = []
            \/ exists c, calls_of w (provider_for v key None) p = [c] /\
                         call_model c = default_model (call_vendor c)).
  { intros v key. unfold calls_of. destruct (sdk_client w _); [by left|].
    right. eexists. split; [done|]. by destruct v. }
  pose proof (choose_provider_auto w model st) as Hchoose.
  destruct (nonempty (getenv w "ANTHROPIC_API_KEY")) as [key|].
  { rewrite (main_calls w p execute None model _ st Hp Hchoose).
    destruct (Hai Anthropic key) as [-> |(c & -> & Hc)];
      [left; by rewrite app_nil_r|right; eauto]. }
  destruct (nonempty (getenv w "OPENAI_API_KEY")) as [key|].
  { rewrite (main_calls w p execute None model _ st Hp Hchoose).
    destruct (Hai OpenAI key) as [-> |(c & -> & Hc)];
      [left; by rewrite app_nil_r|right; eauto]. }
  left. rewrite main_run, Hchoose by done. simpl. by rewrite app_nil_r.
Qed.

(** *** The theorems at work *)

(** X13 at work: the vendor is unreachable. *)
Lemma provider_failure_is_api_error_witness :
  let w := Samples.lal None (Some "sk-test")
             (inl (PyExn APIError "Connection error.")) (inr true) in
  let st' := snd (main w (Some "list all files") true None None false init) in
  calls st' = [provider_request (provider_for OpenAI "sk-test" None) "list all files"] /\
  shell st' = [].
Proof.
  intros w st'. subst st'.
  destruct (provider_failure_is_api_error w
              "list all files" true None None (provider_for OpenAI "sk-test" None) init
              (PyExn Exception "OpenAI API error: Connection error.")
              (after [] [provider_request (provider_for OpenAI "sk-test" None)
                           "list all files"] [] init))
    as (_ & _ & Hcalls & Hshell).
  - discriminate.
  - reflexivity.
  - reflexivity.
  - split; [exact Hcalls|exact Hshell].
Defined.

End LalMore.

(* ===================================================================== *)
(** ** More on lal_simple.py: arguments, selection, confirmation          *)
(* ===================================================================== *)

Module LalSimpleMore.

Import LalSimple LalSimpleSpec.

Lemma in_argv_here s pre rest : in_argv s (pre ++ s :: rest) = true.
Proof.
  unfold in_argv. rewrite existsb_app. simpl.
  by rewrite String.eqb_refl, orb_true_r.
Qed.

Lemma argv_index_first s pre rest :
  in_argv s pre = false -> argv_index s (pre ++ s :: rest) = length pre.
Proof.
  unfold in_argv. induction pre as [|a pre IH]; simpl.
  - by rewrite String.eqb_refl.
  - intros [Ha Hpre]%orb_false_iff.
    rewrite String.eqb_sym, Ha. by rewrite IH.
Qed.

(** X16.  How [lal_simple.py] reads [--provider]: the provider is the
    word right after the first [--provider]; a [--provider] that is the
    last argument selects nothing (no index error), and so does its
    absence. *)
Theorem provider_flag_spec pre v post
    (Hfirst : in_argv "--provider" pre = false) :
  provider_flag (pre ++ "--provider" :: v :: post) = Some v /\
  provider_flag (pre ++ ["--provider"]) = None /\
  provider_flag pre = None.
Proof.
  unfold provider_flag. rewrite !in_argv_here, !argv_index_first, Hfirst by done.
  rewrite !length_app. simpl.
  split; [|split; [|done]].
  - replace (length pre + 1 <? length pre + S (S (length post))) with true
      by (symmetry; apply Nat.ltb_lt; lia).
    rewrite nth_error_app2 by lia.
    by replace (length pre + 1 - length pre) with 1 by lia.
  - by replace (length pre + 1 <? length pre + 1) with false
      by (symmetry; apply Nat.ltb_ge; lia).
Qed.

(** A [--provider] value other than "openai" and "anthropic" is not an
    error: lines 166-182 run as if no provider had been given. *)
Lemma unrecognised_provider w provider prompt anthropic_key openai_key st :
  provider <> Some "openai" ->
  provider <> Some "anthropic" ->
  request_command w provider prompt anthropic_key openai_key st
  = request_command w None prompt anthropic_key openai_key st.
Proof.
  intros Hopenai Hanthropic. unfold request_command.
  destruct provider as [p|]; [|done].
  assert (p <> "openai") as ->%String.eqb_neq by congruence.
  by assert (p <> "anthropic") as ->%String.eqb_neq by congruence.
Qed.

(** X17.  [lal_simple.py], a preferred vendor whose key is not set:
    even though the other vendor's key is, the tool prints that the key is
    not set and stops, without calling anyone or running anything. *)
Theorem simple_preferred_without_key w v argv0 prompt rest st
    (Hprompt : prompt <> "--config")
    (Hflag : provider_flag (argv0 :: prompt :: rest) = Some (provider_word v))
    (Hmissing : truthy_str (getenv w (env_name v)) = false)
    (Hother : truthy_str (getenv w "ANTHROPIC_API_KEY")
              || truthy_str (getenv w "OPENAI_API_KEY") = true) :
  main w (argv0 :: prompt :: rest) st = (inr tt, after [KeyNotSet v] [] [] st).
Proof.
  rewrite simple_main_run by done. cbv zeta. rewrite Hflag.
  unfold request_command.
  destruct v; simpl in *; rewrite Hmissing; simpl;
    unfold after; by rewrite !app_nil_r.
Qed.

Lemma prefix_append p s : String.prefix p (p +:+ s) = true.
Proof.
  induction p as [|a p IH]; [by destruct s|].
  change (String a p +:+ s) with (String a (p +:+ s)). simpl.
  by destruct (Ascii.ascii_dec a a).
Qed.

Lemma lower_ascii_y c :
  lower_ascii c = Ascii.ascii_of_nat 121 ->
  c = Ascii.ascii_of_nat 121 \/ c = Ascii.ascii_of_nat 89.
Proof.
  destruct c as [[] [] [] [] [] [] [] []]; vm_compute; intros H;
    try discriminate H; auto.
Qed.

Lemma lower_y response : lower response = "y" -> response = "y" \/ response = "Y".
Proof.
  destruct response as [|c [|c' rest]]; simpl; try discriminate.
  intros [= Hc]. destruct (lower_ascii_y c Hc) as [-> | ->]; auto.
Qed.

(** X18.  In [lal_simple.py] only the answers "y" and "Y" confirm.  A
    run either leaves the shell alone, or the user typed exactly "y" or
    "Y" at the prompt and exactly one command was run; "yes", " y" or an
    empty line run nothing. *)
Theorem only_y_confirms w argv st :
  let st' := snd (main w argv st) in
  shell st' = shell st \/
  exists shown response command,
    input w shown = inr response /\
    (response = "y" \/ response = "Y") /\
    shell st' = shell st ++ [command].
Proof.
  intros st'. subst st'.
  destruct (simple_gate w argv st)
    as [Hsame|(_ & pv & p & ak & ok & command & st1 & response & _ & Hin & Hy & Hran)];
    [by left|].
  right. exists (console st ++ [CommandBox command; ExecutePrompt]), response, command.
  split; [done|]. split; [by apply lower_y|done].
Qed.

(** What a run of [main] adds to the calls and to the shell. *)
Lemma simple_main_effects w argv st :
  exists ls cs cmds,
    main w argv st = (inr tt, after ls cs cmds st) /\
    length cs <= 1 /\ length cmds <= 1 /\ (cs = [] -> cmds = []).
Proof.
  assert (Hidle :
            length argv < 2 \/ nth_error argv 1 = Some "--config"
            \/ truthy_str (getenv w "ANTHROPIC_API_KEY")
               || truthy_str (getenv w "OPENAI_API_KEY") = false ->
            exists ls cs cmds,
              main w argv st = (inr tt, after ls cs cmds st) /\
              length cs <= 1 /\ length cmds <= 1 /\ (cs = [] -> cmds = [])).
  { intros H. destruct (simple_main_idle w argv st H) as [ls ->].
    exists ls, [], []. simpl. auto. }
  destruct argv as [|argv0 [|prompt rest]]; try (apply Hidle; simpl; lia).
  destruct (String.eqb_spec prompt "--config") as [->|Hprompt]; [auto|].
  destruct (truthy_str (getenv w "ANTHROPIC_API_KEY")
            || truthy_str (getenv w "OPENAI_API_KEY")) eqn:Hkeys; [|auto].
  clear Hidle. rewrite simple_main_run by done. cbv zeta.
  destruct (request_command_run w (provider_flag (argv0 :: prompt :: rest)) prompt
              (getenv w "ANTHROPIC_API_KEY") (getenv w "OPENAI_API_KEY") st)
    as [[v ->]|(r & c & ->)].
  { exists [KeyNotSet v], [], []. simpl. auto. }
  destruct r as [e|command].
  { rewrite simple_after_after. eexists _, _, _. split; [reflexivity|].
    simpl. repeat apply conj; (done || lia). }
  rewrite show_and_run_run.
  destruct (execute_flag _);
    [destruct (input w _) as [e|response];
     [|destruct (String.eqb (lower response) "y")]|];
    rewrite ?simple_after_after; eexists _, _, _; (split; [reflexivity|]);
    simpl; repeat apply conj; (done || lia).
Qed.

(** X19.  Whatever the arguments, the environment, the network and the
    user do, a run of [lal_simple.py] makes at most one request to a
    vendor and hands at most one command to the shell, and none in a run
    that made no request. *)
Theorem simple_calls_and_commands w argv st :
  let st' := snd (main w argv st) in
  exists cs cmds,
    calls st' = calls st ++ cs /\
    shell st' = shell st ++ cmds /\
    length cs <= 1 /\ length cmds <= 1 /\ (cs = [] -> cmds = []).
Proof.
  intros st'. subst st'.
  destruct (simple_main_effects w argv st)
    as (ls & cs & cmds & -> & Hcs & Hcmds & Hnone).
  by exists cs, cmds.
Qed.

(** X20.  Whatever goes wrong in a request of [lal_simple.py] (the
    network, a refusal, a body that is not JSON or lacks the expected
    fields), the user is shown one error line starting with "API error: ",
    and nothing is run. *)
Theorem simple_failure_reported w argv0 prompt rest st e st1
    (Hprompt : prompt <> "--config")
    (Hkeys : truthy_str (getenv w "ANTHROPIC_API_KEY")
             || truthy_str (getenv w "OPENAI_API_KEY") = true)
    (Hfailed :
       request_command w (provider_flag (argv0 :: prompt :: rest)) prompt
         (getenv w "ANTHROPIC_API_KEY") (getenv w "OPENAI_API_KEY") st = (inl e, st1)) :
  main w (argv0 :: prompt :: rest) st
  = (inr tt, after [ErrorLine (str_exn e)] [] [] st1) /\
  String.prefix "API error: " (str_exn e) = true /\
  shell st1 = shell st.
Proof.
  split; [by rewrite simple_main_run, Hfailed by done|].
  destruct (request_command_run w (provider_flag (argv0 :: prompt :: rest)) prompt
              (getenv w "ANTHROPIC_API_KEY") (getenv w "OPENAI_API_KEY") st)
    as [[v Hr]|(r & c & Hr)]; rewrite Hr in Hfailed; [discriminate|].
  destruct r as [e'|command]; [|discriminate]. injection Hfailed as <- <-.
  split; [|simpl; by rewrite app_nil_r].
  clear -Hr. revert Hr. unfold request_command.
  assert (Hwrapped : forall (m : M state string) s s',
            (forall st e0 st0, m st = (inl e0, st0) ->
                               String.prefix "API error: " (str_exn e0) = true) ->
            bind m (fun command => ret (Some command)) s = (inl e', s') ->
            String.prefix "API error: " (str_exn e') = true).
  { intros m s s' Hm. unfold bind, ret.
    destruct (m s) as [[e0|command] st0] eqn:Hms; [|discriminate].
    intros [= <- _]. by eapply Hm. }
  assert (Hanthropic : forall key st e0 st0,
            make_anthropic_request w prompt key st = (inl e0, st0) ->
            String.prefix "API error: " (str_exn e0) = true).
  { intros key s e0 s0. unfold make_anthropic_request, try_except.
    destruct (bind _ _ s) as [[e1|text] s1]; unfold raise; [|discriminate].
    intros [= <- _]. apply prefix_append. }
  assert (Hopenai : forall key st e0 st0,
            make_openai_request w prompt key st = (inl e0, st0) ->
            String.prefix "API error: " (str_exn e0) = true).
  { intros key s e0 s0. unfold make_openai_request, try_except.
    destruct (bind _ _ s) as [[e1|text] s1]; unfold raise; [|discriminate].
    intros [= <- _]. apply prefix_append. }
  repeat match goal with
         | |- context [if ?b then _ else _] => destruct b
         end;
    try (unfold bind; rewrite simple_print_run; discriminate);
    intros Hr; apply (fun H => Hwrapped _ _ _ H Hr); eauto.
Qed.

(** The calls of a run that gets a command or an error out of a vendor. *)
Lemma simple_calls_after_request w argv0 prompt rest st r c :
  prompt <> "--config" ->
  truthy_str (getenv w "ANTHROPIC_API_KEY")
  || truthy_str (getenv w "OPENAI_API_KEY") = true ->
  request_command w (provider_flag (argv0 :: prompt :: rest)) prompt
    (getenv w "ANTHROPIC_API_KEY") (getenv w "OPENAI_API_KEY") st
  = (r, after [] [c] [] st) ->
  calls (snd (main w (argv0 :: prompt :: rest) st)) = calls st ++ [c].
Proof.
  intros Hprompt Hkeys Hr. rewrite simple_main_run, Hr by done.
  destruct r as [e|[command|]]; try (simpl; by rewrite ?app_nil_r).
  rewrite show_and_run_run.
  destruct (execute_flag _);
    [destruct (input w _) as [e|response];
     [|destruct (String.eqb (lower response) "y")]|];
    simpl; by rewrite ?app_nil_r.
Qed.

(** X21.  Selection in [lal_simple.py] when no vendor is named
    ([--provider] is absent, comes last, or is followed by a word other
    than "openai" and "anthropic"): the one call of the run goes to
    Anthropic, with the Anthropic key, whenever that key is set, whether or
    not the OpenAI key is set too; it goes to OpenAI, with the OpenAI key,
    when only that one is set. *)
Theorem simple_auto_select w argv0 prompt rest st
    (Hprompt : prompt <> "--config")
    (Hnot_openai : provider_flag (argv0 :: prompt :: rest) <> Some "openai")
    (Hnot_anthropic : provider_flag (argv0 :: prompt :: rest) <> Some "anthropic") :
  let st' := snd (main w (argv0 :: prompt :: rest) st) in
  (truthy_str (getenv w "ANTHROPIC_API_KEY") = true ->
   calls st' = calls st ++ [request_for Anthropic prompt (getenv w "ANTHROPIC_API_KEY")]) /\
  (truthy_str (getenv w "ANTHROPIC_API_KEY") = false ->
   truthy_str (getenv w "OPENAI_API_KEY") = true ->
   calls st' = calls st ++ [request_for OpenAI prompt (getenv w "OPENAI_API_KEY")]).
Proof.
  intros st'. subst st'. split.
  - intros HA.
    destruct (make_anthropic_request_run w prompt (getenv w "ANTHROPIC_API_KEY") st)
      as [r Hr].
    eapply (simple_calls_after_request w argv0 prompt rest st
              (match r with inl e => inl e | inr command => inr (Some command) end));
      [done|rewrite HA; reflexivity|].
    rewrite unrecognised_provider by done.
    unfold request_command. simpl. rewrite HA.
    unfold bind. rewrite Hr. by destruct r.
  - intros HA HO.
    destruct (make_openai_request_run w prompt (getenv w "OPENAI_API_KEY") st)
      as [r Hr].
    eapply (simple_calls_after_request w argv0 prompt rest st
              (match r with inl e => inl e | inr command => inr (Some command) end));
      [done|rewrite HA, HO; reflexivity|].
    rewrite unrecognised_provider by done.
    unfold request_command. simpl. rewrite HA.
    unfold bind. rewrite Hr. by destruct r.
Qed.

(** *** The theorems at work *)

(** X16 at work. *)
Lemma provider_flag_spec_witness :
  provider_flag ["lal_simple.py"; "list all files"; "--provider"; "openai"; "-e"]
    = Some "openai" /\
  provider_flag ["lal_simple.py"; "list all files"; "--provider"] = None /\
  provider_flag ["lal_simple.py"; "list all files"] = None.
Proof.
  apply (provider_flag_spec ["lal_simple.py"; "list all files"] "openai" ["-e"]).
  reflexivity.
Defined.

(** X17 at work: OpenAI asked for, only the Anthropic key set. *)
Lemma simple_preferred_without_key_witness :
  main (Samples.lal_simple (Some "sk-ant-test") None
          (inr (inr (JObj []))) (inr "y"))
    ["lal_simple.py"; "list all files"; "--provider"; "openai"; "-e"] init
  = (inr tt, after [KeyNotSet OpenAI] [] [] init).
Proof.
  apply (simple_preferred_without_key
           (Samples.lal_simple (Some "sk-ant-test") None (inr (inr (JObj []))) (inr "y"))
           OpenAI).
  - discriminate.
  - reflexivity.
  - reflexivity.
  - reflexivity.
Defined.

(** X20 at work: the vendor cannot be reached. *)
Lemma simple_failure_reported_witness :
  main (Samples.lal_simple (Some "sk-ant-test") None
          (inl (PyExn URLError "<urlopen error timed out>")) (inr "y"))
    ["lal_simple.py"; "list all files"; "-e"] init
  = (inr tt,
     {| console := [ErrorLine "API error: <urlopen error timed out>"];
        calls := [request_for Anthropic "list all files" (Some "sk-ant-test")];
        shell := [] |}).
Proof.
  destruct (simple_failure_reported
              (Samples.lal_simple (Some "sk-ant-test") None
                 (inl (PyExn URLError "<urlopen error timed out>")) (inr "y"))
              "lal_simple.py" "list all files" ["-e"] init
              (PyExn Exception "API error: <urlopen error timed out>")
              (after [] [request_for Anthropic "list all files" (Some "sk-ant-test")]
                 [] init))
    as (Hmain & _ & _).
  - discriminate.
  - reflexivity.
  - reflexivity.
  - rewrite Hmain. reflexivity.
Defined.

(** X21 at work: both keys set and an unknown provider word. *)
Lemma simple_auto_select_witness :
  calls (snd (main (Samples.lal_simple (Some "sk-ant-test") (Some "sk-test")
                      (inr (inr (JObj []))) (inr "n"))
                ["lal_simple.py"; "list all files"; "--provider"; "claude"] init))
  = [request_for Anthropic "list all files" (Some "sk-ant-test")].
Proof.
  destruct (simple_auto_select
              (Samples.lal_simple (Some "sk-ant-test") (Some "sk-test")
                 (inr (inr (JObj []))) (inr "n"))
              "lal_simple.py" "list all files" ["--provider"; "claude"] init)
    as [Hanthropic _].
  - discriminate.
  - discriminate.
  - discriminate.
  - apply Hanthropic. reflexivity.
Defined.

End LalSimpleMore.
